(** * Verification of the Islet sample application and of the measurement utility

    Two programs of the certifier repository are embedded here:

    - [sample_apps/simple_app_under_islet/islet_example_app.cc]
      (module [IsletExampleApp]): the operation dispatcher in [main] and the
      two session handlers [client_application] and [server_application];
    - [utilities/measurement_init.cc] (module [MeasurementInit]): the helpers
      [write_file], [file_size], [read_file], [digest_message] and [main].

    Both programs are sequences of calls into code that lives elsewhere (the
    trust manager, the secure channel, gflags, OpenSSL, the operating system).
    Those collaborators are an interface here (a type class over an abstract
    world), and each program is a computation in a small monad that threads the
    world and records every call it makes, with the value the call returned. *)

From Stdlib Require Import ZArith String Ascii List Bool Lia DecimalString.
Import ListNotations.

Local Open Scope string_scope.
Local Open Scope Z_scope.
Local Open Scope list_scope.

(** ** Call-recording state monad

    A computation takes the world, returns the calls it made, and either a
    value with the new world or [None] when a call never returned (the listen
    loop of the server). *)

Module Trace.

Definition M (W Ev A : Type) : Type := W -> list Ev * option (A * W).

Definition ret {W Ev A} (a : A) : M W Ev A :=
  fun w => ([], Some (a, w)).

Definition bind {W Ev A B} (m : M W Ev A) (k : A -> M W Ev B) : M W Ev B :=
  fun w =>
    match m w with
    | (t, None) => (t, None)
    | (t, Some (a, w')) =>
        match k a w' with
        | (t', r) => (t ++ t', r)
        end
    end.

(** A call that only leaves a mark (its effect on the world is not modelled). *)
Definition emit {W Ev} (e : Ev) : M W Ev unit :=
  fun w => ([e], Some (tt, w)).

(** A call into a collaborator: [f] is what the collaborator does to the
    world, [ev] the record of the call with its result. *)
Definition invoke {W Ev A} (f : W -> A * W) (ev : A -> Ev) : M W Ev A :=
  fun w => match f w with (a, w') => ([ev a], Some (a, w')) end.

(** A call that returns nothing. *)
Definition perform {W Ev} (f : W -> W) (e : Ev) : M W Ev unit :=
  fun w => ([e], Some (tt, f w)).

(** The calls made, the value returned and the final world of a run. *)
Definition calls {W Ev A} (r : list Ev * option (A * W)) : list Ev := fst r.
Definition result {W Ev A} (r : list Ev * option (A * W)) : option A :=
  option_map fst (snd r).
Definition final {W Ev A} (r : list Ev * option (A * W)) : option W :=
  option_map snd (snd r).

End Trace.

Import Trace.

Declare Scope trace_scope.
Delimit Scope trace_scope with trace.
Notation "x <- m ;; k" := (bind m (fun x => k))
  (at level 61, m at next level, right associativity) : trace_scope.
Notation "m ;; k" := (bind m (fun _ => k))
  (at level 61, right associativity) : trace_scope.
Local Open Scope trace_scope.

(** ** C strings *)

(** ["\n"] *)
Definition nl : string := String (ascii_of_nat 10) EmptyString.

(** The C string held by a [std::string]: [c_str()] and [data()] point to the
    characters, and every C function ([strcmp], [printf] with [%s]) reads them
    up to the first NUL. *)
Fixpoint c_str (s : string) : string :=
  match s with
  | EmptyString => EmptyString
  | String c s' => if Ascii.eqb c zero then EmptyString else String c (c_str s')
  end.

Definition strlen (s : string) : Z := Z.of_nat (String.length (c_str s)).

(** [strcmp]: only the sign of the result is specified by C. *)
Definition strcmp (a b : string) : Z :=
  match String.compare (c_str a) (c_str b) with
  | Eq => 0
  | Lt => -1
  | Gt => 1
  end.

(** ** The sample application: islet_example_app.cc *)

Module IsletExampleApp.

(** The gflags of the program (DEFINE_bool, DEFINE_string, DEFINE_int32), as
    they stand after [gflags::ParseCommandLineFlags]. *)
Record flags : Type := {
  FLAGS_print_all : bool;
  FLAGS_operation : string;
  FLAGS_policy_host : string;
  FLAGS_policy_port : Z;
  FLAGS_data_dir : string;
  FLAGS_server_app_host : string;
  FLAGS_server_app_port : Z;
  FLAGS_policy_store_file : string;
  FLAGS_platform_file_name : string;
  FLAGS_platform_attest_endorsement : string;
  FLAGS_attest_key_file : string;
  FLAGS_measurement_file : string
}.

(** The flags' default values. *)
Definition default_flags : flags := {|
  FLAGS_print_all := false;
  FLAGS_operation := "";
  FLAGS_policy_host := "localhost";
  FLAGS_policy_port := 8123;
  FLAGS_data_dir := "./app1_data/";
  FLAGS_server_app_host := "localhost";
  FLAGS_server_app_port := 8124;
  FLAGS_policy_store_file := "store.bin";
  FLAGS_platform_file_name := "platform_file.bin";
  FLAGS_platform_attest_endorsement := "platform_attest_endorsement.bin";
  FLAGS_attest_key_file := "attest_key_file.bin";
  FLAGS_measurement_file := "example_app.measurement"
|}.

(** The three flags of the trust manager that [main] reads. *)
Inductive trust_flag : Type :=
| cc_auth_key_initialized_
| cc_policy_info_initialized_
| primary_admissions_cert_valid_.

(** The calls the program makes, each with the value it returned. What
    [server_dispatch] does while it runs (the sessions it hands to the
    callback) is recorded inside its own entry, so that a list of calls holds
    the calls of one function body only. *)
#[local] Set Warnings "-register-all".
Inductive call (Chan : Type) : Type :=
| Printf (text : string)
| SSL_library_init
| New_cc_trust_manager (enclave_type purpose store_file : string)
    (non_null : bool)
| Init_policy_key (r : bool)
| Initialize_enclave (n : Z) (r : bool)
| Cold_init (public_key_alg symmetric_key_alg home_domain : string)
    (policy_host : string) (policy_port : Z)
    (server_app_host : string) (server_app_port : Z) (r : bool)
| Warm_restart (r : bool)
| Certify_me (r : bool)
| Read_flag (f : trust_flag) (v : bool)
| Clear_sensitive_data
| Delete_trust_mgr
| New_channel (role : string) (c : Chan)
| Destroy_channel (c : Chan)
| Init_client_ssl (c : Chan) (host : string) (port : Z) (r : bool)
| Channel_write (c : Chan) (size : Z) (buf : string)
| Channel_read (c : Chan) (n : Z) (out : string)
| Channel_close (c : Chan)
| Server_dispatch (host : string) (port : Z) (inside : list (call Chan))
    (r : option bool).

Arguments Printf {Chan}.
Arguments SSL_library_init {Chan}.
Arguments New_cc_trust_manager {Chan}.
Arguments Init_policy_key {Chan}.
Arguments Initialize_enclave {Chan}.
Arguments Cold_init {Chan}.
Arguments Warm_restart {Chan}.
Arguments Certify_me {Chan}.
Arguments Read_flag {Chan}.
Arguments Clear_sensitive_data {Chan}.
Arguments Delete_trust_mgr {Chan}.
Arguments New_channel {Chan}.
Arguments Destroy_channel {Chan}.
Arguments Init_client_ssl {Chan}.
Arguments Channel_write {Chan}.
Arguments Channel_read {Chan}.
Arguments Channel_close {Chan}.
Arguments Server_dispatch {Chan}.

(** The collaborators of the program, none of which is defined in the two
    source files: the trust manager ([cc_trust_manager], reached through the
    global [trust_mgr]), the secure channel ([secure_authenticated_channel]),
    [server_dispatch], the generated [policy_key.cc] and two constants of the
    framework. [W] is everything they can change (the trust manager object,
    the policy store on disk, the network), [Chan] names a channel object. *)
Class Collaborators (W Chan : Type) : Type := {
  (** policy_key.cc *)
  initialized_cert : list Z;
  initialized_cert_size : Z;
  (** certifier_framework.h *)
  Enc_method_rsa_2048 : string;
  Enc_method_aes_256_cbc_hmac_sha256 : string;
  key_message : Type;
  (** [new cc_trust_manager(enclave_type, purpose, store_file)]; [false] is
      a null pointer. *)
  tm_new : string -> string -> string -> W -> bool * W;
  tm_init_policy_key : list Z -> Z -> W -> bool * W;
  tm_initialize_enclave : Z -> W -> bool * W;
  tm_cold_init :
    string -> string -> string -> string -> Z -> string -> Z -> W -> bool * W;
  tm_warm_restart : W -> bool * W;
  tm_certify_me : W -> bool * W;
  tm_clear_sensitive_data : W -> W;
  tm_delete : W -> W;
  (** the data members of the trust manager that [main] reads *)
  tm_flag : trust_flag -> W -> bool;
  serialized_policy_cert_ : W -> string;
  private_auth_key_ : W -> key_message;
  serialized_primary_admissions_cert_ : W -> string;
  (** [secure_authenticated_channel]: constructor, destructor, members *)
  chan_new : string -> W -> Chan * W;
  chan_destroy : Chan -> W -> W;
  chan_init_client_ssl :
    Chan -> string -> Z -> string -> key_message -> string -> W -> bool * W;
  peer_id_ : Chan -> W -> string;
  peer_cert_ : Chan -> W -> bool;
  chan_write : Chan -> Z -> string -> W -> W;
  chan_read : Chan -> W -> (Z * string) * W;
  chan_close : Chan -> W -> W;
  (** [server_dispatch(host, port, policy_cert, key, admissions_cert, func)]:
      may call [func] on channels of its own, and may never return. *)
  server_dispatch :
    string -> Z -> string -> key_message -> string ->
    (Chan -> M W (call Chan) unit) -> M W (call Chan) bool
}.

(** The two messages of the session. *)
Definition client_msg : string := ("Hi from your secret client" ++ nl)%string.
Definition server_msg : string := ("Hi from your secret server" ++ nl)%string.

Section Program.

Context {W Chan : Type} {collab : Collaborators W Chan}.

Abbreviation prog := (M W (call Chan)).

Definition printf (text : string) : prog unit := emit (Printf text).

(** Reading a data member of [*trust_mgr]. *)
Definition read_flag (f : trust_flag) : prog bool :=
  invoke (fun w => (tm_flag f w, w)) (Read_flag f).

(** The banner both session handlers start with: the peer id, and a line
    more when the peer certificate is there ([X509_print_fp] is compiled only
    under DEBUG). *)
Definition print_peer (who : string) (channel : Chan) : prog unit :=
  fun w =>
    (printf (who ++ " peer id is " ++ c_str (peer_id_ channel w) ++ nl);;
     if peer_cert_ channel w
     then printf (who ++ " peer cert is:" ++ nl)
     else ret tt) w.


(** [bool client_application(secure_authenticated_channel &channel)] *)
Definition client_application (channel : Chan) : prog bool :=
  print_peer "Client" channel;;
  let msg := client_msg in
  perform (chan_write channel (strlen msg) msg)
          (Channel_write channel (strlen msg) msg);;
  r <- invoke (chan_read channel)
              (fun r => Channel_read channel (fst r) (snd r));;
  let n := fst r in
  let out := snd r in
  printf ("SSL client read: " ++ c_str out ++ nl);;
  perform (chan_close channel) (Channel_close channel);;
  if (n <? 0) || negb (strcmp out server_msg =? 0) then
    (printf ("client_application() error, line 94, "
             ++ "did not receive expected server response" ++ nl);;
     ret false)
  else
    ret true.

(** [void server_application(secure_authenticated_channel &channel)] *)
Definition server_application (channel : Chan) : prog unit :=
  print_peer "Server" channel;;
  r <- invoke (chan_read channel)
              (fun r => Channel_read channel (fst r) (snd r));;
  let out := snd r in
  printf ("SSL server read: " ++ c_str out ++ nl);;
  let msg := server_msg in
  perform (chan_write channel (strlen msg) msg)
          (Channel_write channel (strlen msg) msg);;
  perform (chan_close channel) (Channel_close channel).

(** [main], lines 131-147: the usage text printed when no operation is
    given. [av0] is [av[0]]. *)
Definition usage : string := "ARM CCA-based simple app".

Definition indent : string := "                      ".

Definition print_usage (av0 : string) : prog unit :=
  printf (c_str av0 ++ ": " ++ usage ++ nl ++ nl);;
  printf (c_str av0 ++ " --print_all=true|false " ++ nl
          ++ indent ++ "--operation=op " ++ nl
          ++ indent ++ "--policy_host=policy-host-address " ++ nl
          ++ indent ++ "--policy_port=policy-host-port" ++ nl
          ++ indent ++ "--data_dir=-directory-for-app-data " ++ nl
          ++ indent ++ "--server_app_host=my-server-host-address " ++ nl
          ++ indent ++ "--server_app_port=server-host-port" ++ nl
          ++ indent
          ++ "--policy_cert_file=self-signed-policy-cert-file-name " ++ nl
          ++ indent ++ "--policy_store_file=policy-store-file-name"
          ++ nl ++ nl);;
  printf ("Operations are: cold-init, get-certified, "
          ++ "run-app-as-client, run-app-as-server" ++ nl).

(** [main], lines 149-181: the trust manager is created and initialised.
    Each of the three failures leaves [main] at once with [return 1]; the
    value is [Some 1] then, and [None] when control reaches line 183.
    [params] is a null pointer passed by value, so lines 178-181 do nothing. *)
Definition main_init (fl : flags) : prog (option Z) :=
  emit SSL_library_init;;
  let enclave_type := "islet-enclave" in
  let purpose := "authentication" in
  let store_file := (FLAGS_data_dir fl ++ FLAGS_policy_store_file fl)%string in
  non_null <- invoke (tm_new enclave_type purpose store_file)
                     (New_cc_trust_manager enclave_type purpose store_file);;
  if negb non_null then
    (printf ("couldn't initialize trust object" ++ nl);;
     ret (Some 1))
  else
  ok <- invoke (tm_init_policy_key initialized_cert initialized_cert_size)
               Init_policy_key;;
  if negb ok then
    (printf ("main() error, line 163, Can't init policy key" ++ nl);;
     ret (Some 1))
  else
  let n := 0 in
  ok <- invoke (tm_initialize_enclave n) (Initialize_enclave n);;
  if negb ok then
    (printf ("main() error, line 175, Can't init Islet enclave" ++ nl);;
     ret (Some 1))
  else
    ret None.

(** [main], lines 183-287: "Carry out operation". The value is [ret] as it
    stands at the label [done]: every [ret = 1; goto done;] ends the block
    with 1, and a path that falls out of the if-chain leaves the initial 0.
    The channel of the client branch is a local object of that branch, so
    leaving the branch (by [goto] or at its end) runs its destructor. *)
Definition main_operation (fl : flags) : prog Z :=
  let public_key_alg := Enc_method_rsa_2048 in
  let symmetric_key_alg := Enc_method_aes_256_cbc_hmac_sha256 in
  if (FLAGS_operation fl =? "cold-init")%string then
    ok <- invoke (tm_cold_init public_key_alg symmetric_key_alg
                    "simple-app-home_domain"
                    (FLAGS_policy_host fl) (FLAGS_policy_port fl)
                    (FLAGS_server_app_host fl) (FLAGS_server_app_port fl))
                 (Cold_init public_key_alg symmetric_key_alg
                    "simple-app-home_domain"
                    (FLAGS_policy_host fl) (FLAGS_policy_port fl)
                    (FLAGS_server_app_host fl) (FLAGS_server_app_port fl));;
    if negb ok then
      (printf ("main() error, line 197, cold-init failed" ++ nl);;
       ret 1)
    else ret 0
  else if (FLAGS_operation fl =? "get-certified")%string then
    ok <- invoke tm_warm_restart Warm_restart;;
    if negb ok then
      (printf ("main() error, line 203, warm-restart failed" ++ nl);;
       ret 1)
    else
    ok <- invoke tm_certify_me Certify_me;;
    if negb ok then
      (printf ("main() error, line 209, certification failed" ++ nl);;
       ret 1)
    else ret 0
  else if (FLAGS_operation fl =? "run-app-as-client")%string then
    let my_role := "client" in
    channel <- invoke (chan_new my_role) (New_channel my_role);;
    r <- (ok <- invoke tm_warm_restart Warm_restart;;
          if negb ok then
            (printf ("main() error, line 218, warm-restart failed" ++ nl);;
             ret 1)
          else
          printf ("Running App as client" ++ nl);;
          auth <- read_flag cc_auth_key_initialized_;;
          uninit <- (if negb auth then ret true
                     else (policy <- read_flag cc_policy_info_initialized_;;
                           ret (negb policy)));;
          if (uninit : bool) then
            (printf ("main() error, line 228, trust data not initialized"
                     ++ nl);;
             ret 1)
          else
          valid <- read_flag primary_admissions_cert_valid_;;
          if negb valid then
            (printf ("main() error, line 235, "
                     ++ "primary admissions cert not valid" ++ nl);;
             ret 1)
          else
          ok <- (fun w =>
                   invoke (chan_init_client_ssl channel
                             (FLAGS_server_app_host fl)
                             (FLAGS_server_app_port fl)
                             (serialized_policy_cert_ w)
                             (private_auth_key_ w)
                             (serialized_primary_admissions_cert_ w))
                          (Init_client_ssl channel
                             (FLAGS_server_app_host fl)
                             (FLAGS_server_app_port fl)) w);;
          if negb ok then
            (printf ("main() error, line 248, Can't init client app" ++ nl);;
             ret 1)
          else
          ok <- client_application channel;;
          if negb ok then
            (printf ("main() error, line 257, client_application failed"
                     ++ nl);;
             ret 1)
          else ret 0);;
    perform (chan_destroy channel) (Destroy_channel channel);;
    ret r
  else if (FLAGS_operation fl =? "run-app-as-server")%string then
    ok <- invoke tm_warm_restart Warm_restart;;
    if negb ok then
      (printf ("main() error, line 264, warm-restart failed" ++ nl);;
       ret 1)
    else
    valid <- read_flag primary_admissions_cert_valid_;;
    if negb valid then
      (printf ("main() error, line 271, primary admissions cert not valid"
               ++ nl);;
       ret 1)
    else
    printf ("Running App as server" ++ nl);;
    ok <- (fun w =>
             match server_dispatch (FLAGS_server_app_host fl)
                     (FLAGS_server_app_port fl)
                     (serialized_policy_cert_ w)
                     (private_auth_key_ w)
                     (serialized_primary_admissions_cert_ w)
                     server_application w
             with
             | (inside, r) =>
                 ([Server_dispatch (FLAGS_server_app_host fl)
                     (FLAGS_server_app_port fl) inside (option_map fst r)],
                  r)
             end);;
    if negb ok then ret 1 else ret 0
  else
    (printf ("main() error, line 286, Unknown operation" ++ nl);;
     ret 0).

(** [main], lines 289-295: the label [done]. [trust_mgr] is not null here. *)
Definition main_done (ret_ : Z) : prog Z :=
  perform tm_clear_sensitive_data Clear_sensitive_data;;
  perform tm_delete Delete_trust_mgr;;
  ret ret_.

(** [int main(int an, char **av)], after the flags are parsed. *)
Definition main (av0 : string) (fl : flags) : prog Z :=
  if (FLAGS_operation fl =? "")%string then
    (print_usage av0;;
     ret 0)
  else
    early <- main_init fl;;
    match early with
    | Some code => ret code
    | None =>
        ret_ <- main_operation fl;;
        main_done ret_
    end.

End Program.

(** *** What a list of calls contains *)

Section Calls.

Context {Chan : Type}.

(** The lifecycle calls on the trust manager. *)
Definition is_lifecycle_call (c : call Chan) : bool :=
  match c with
  | Init_policy_key _ | Initialize_enclave _ _ | Cold_init _ _ _ _ _ _ _ _
  | Warm_restart _ | Certify_me _ => true
  | _ => false
  end.

(** The calls on a secure channel, [server_dispatch] included. *)
Definition is_channel_call (c : call Chan) : bool :=
  match c with
  | New_channel _ _ | Destroy_channel _ | Init_client_ssl _ _ _ _
  | Channel_write _ _ _ | Channel_read _ _ _ | Channel_close _
  | Server_dispatch _ _ _ _ => true
  | _ => false
  end.

Definition is_printf (c : call Chan) : bool :=
  match c with Printf _ => true | _ => false end.

Definition is_init_policy_key (c : call Chan) : bool :=
  match c with Init_policy_key _ => true | _ => false end.

Definition is_initialize_enclave (c : call Chan) : bool :=
  match c with Initialize_enclave _ _ => true | _ => false end.

Definition is_cold_init (c : call Chan) : bool :=
  match c with Cold_init _ _ _ _ _ _ _ _ => true | _ => false end.

Definition is_warm_restart (c : call Chan) : bool :=
  match c with Warm_restart _ => true | _ => false end.

Definition is_certify_me (c : call Chan) : bool :=
  match c with Certify_me _ => true | _ => false end.

Definition is_clear_sensitive_data (c : call Chan) : bool :=
  match c with Clear_sensitive_data => true | _ => false end.

Definition is_read_flag (c : call Chan) : bool :=
  match c with Read_flag _ _ => true | _ => false end.

(** Opening a channel as client. *)
Definition is_init_client_ssl (c : call Chan) : bool :=
  match c with Init_client_ssl _ _ _ _ => true | _ => false end.

(** Starting to listen as server. *)
Definition is_server_dispatch (c : call Chan) : bool :=
  match c with Server_dispatch _ _ _ _ => true | _ => false end.

Definition is_open_or_listen (c : call Chan) : bool :=
  is_init_client_ssl c || is_server_dispatch c.

(** The calls of lines 149-181. *)
Definition is_init_call (c : call Chan) : bool :=
  match c with
  | Printf _ | SSL_library_init | New_cc_trust_manager _ _ _ _
  | Init_policy_key _ | Initialize_enclave _ _ => true
  | _ => false
  end.

(** How many calls of a kind a list holds, and whether it holds any. *)
Definition count (p : call Chan -> bool) (t : list (call Chan)) : nat :=
  List.length (filter p t).

Definition never (p : call Chan -> bool) (t : list (call Chan)) : Prop :=
  forall c, In c t -> p c = false.

(** The calls other than [printf]. *)
Definition without_printf (t : list (call Chan)) : list (call Chan) :=
  filter (fun c => negb (is_printf c)) t.

(** Every call of kind [q] comes after some call of kind [p]. *)
Fixpoint preceded_from (seen : bool) (p q : call Chan -> bool)
    (t : list (call Chan)) : bool :=
  match t with
  | [] => true
  | c :: t' =>
      (negb (q c) || seen) && preceded_from (seen || p c) p q t'
  end.

Definition preceded_by (p q : call Chan -> bool) (t : list (call Chan))
    : bool :=
  preceded_from false p q t.

(** More kinds of calls. *)
Definition is_delete_trust_mgr (c : call Chan) : bool :=
  match c with Delete_trust_mgr => true | _ => false end.

Definition is_new_channel (c : call Chan) : bool :=
  match c with New_channel _ _ => true | _ => false end.

Definition is_destroy_channel (c : call Chan) : bool :=
  match c with Destroy_channel _ => true | _ => false end.

Definition is_channel_close (c : call Chan) : bool :=
  match c with Channel_close _ => true | _ => false end.

(** [init_client_ssl] returned true. *)
Definition is_client_ssl_up (c : call Chan) : bool :=
  match c with Init_client_ssl _ _ _ r => r | _ => false end.

(** One of the three steps of the initialisation failed. *)
Definition init_failed (c : call Chan) : bool :=
  match c with
  | New_cc_trust_manager _ _ _ r | Init_policy_key r
  | Initialize_enclave _ r => negb r
  | _ => false
  end.

(** The three steps of the initialisation, when they succeed. *)
Definition trust_manager_created (c : call Chan) : bool :=
  match c with New_cc_trust_manager _ _ _ r => r | _ => false end.

Definition policy_key_ready (c : call Chan) : bool :=
  match c with Init_policy_key r => r | _ => false end.

Definition enclave_ready (c : call Chan) : bool :=
  match c with Initialize_enclave _ r => r | _ => false end.

(** The channel object a call is made on. *)
Definition channel_of (c : call Chan) : option Chan :=
  match c with
  | New_channel _ ch | Destroy_channel ch | Init_client_ssl ch _ _ _
  | Channel_write ch _ _ | Channel_read ch _ _ | Channel_close ch => Some ch
  | _ => None
  end.

End Calls.

(** The operations [main] knows: the strings it compares [FLAGS_operation]
    with at lines 189, 201, 213 and 262. *)
Definition recognized_operation (op : string) : bool :=
  ((op =? "cold-init") || (op =? "get-certified")
   || (op =? "run-app-as-client") || (op =? "run-app-as-server"))%string.

(** The diagnostic of the last branch of the if-chain. *)
Definition unknown_operation_message : string :=
  ("main() error, line 286, Unknown operation" ++ nl)%string.

(** *** Scripted collaborators

    A world whose collaborators answer as a script says; it is used to run the
    program on concrete inputs. The trust manager has its three flags:
    [cold_init] sets the first two, [warm_restart] loads all three from the
    policy store, [certify_me] sets the third. [server_dispatch] serves one
    session on channel 1 and then returns what the script says, or does not
    return. *)
Module Scripted.

Record world : Type := {
  new_succeeds : bool;
  init_policy_key_succeeds : bool;
  initialize_enclave_succeeds : bool;
  cold_init_succeeds : bool;
  warm_restart_succeeds : bool;
  certify_me_succeeds : bool;
  init_client_ssl_succeeds : bool;
  peer_sends : Z * string;
  dispatch_returns : option bool;
  stored_flags : bool * bool * bool;
  live_flags : bool * bool * bool
}.

Definition set_live (f : bool * bool * bool) (w : world) : world := {|
  new_succeeds := new_succeeds w;
  init_policy_key_succeeds := init_policy_key_succeeds w;
  initialize_enclave_succeeds := initialize_enclave_succeeds w;
  cold_init_succeeds := cold_init_succeeds w;
  warm_restart_succeeds := warm_restart_succeeds w;
  certify_me_succeeds := certify_me_succeeds w;
  init_client_ssl_succeeds := init_client_ssl_succeeds w;
  peer_sends := peer_sends w;
  dispatch_returns := dispatch_returns w;
  stored_flags := stored_flags w;
  live_flags := f
|}.

Definition flag_of (f : trust_flag) (w : world) : bool :=
  match f, live_flags w with
  | cc_auth_key_initialized_, (a, _, _) => a
  | cc_policy_info_initialized_, (_, p, _) => p
  | primary_admissions_cert_valid_, (_, _, c) => c
  end.

Definition answer (ok : world -> bool) (change : world -> world) (w : world)
    : bool * world :=
  if ok w then (true, change w) else (false, w).

Definition serve_one (func : nat -> M world (call nat) unit)
    : M world (call nat) bool :=
  fun w =>
    match func 1%nat w with
    | (t, None) => (t, None)
    | (t, Some (_, w')) =>
        (t, option_map (fun b => (b, w')) (dispatch_returns w'))
    end.

#[global] Instance collaborators : Collaborators world nat := {|
  initialized_cert := [48; 130];
  initialized_cert_size := 2;
  Enc_method_rsa_2048 := "rsa-2048";
  Enc_method_aes_256_cbc_hmac_sha256 := "aes-256-cbc-hmac-sha256";
  key_message := unit;
  tm_new := fun _ _ _ => answer new_succeeds (fun w => w);
  tm_init_policy_key := fun _ _ => answer init_policy_key_succeeds (fun w => w);
  tm_initialize_enclave :=
    fun _ => answer initialize_enclave_succeeds (fun w => w);
  tm_cold_init :=
    fun _ _ _ _ _ _ _ =>
      answer cold_init_succeeds (set_live (true, true, false));
  tm_warm_restart :=
    answer warm_restart_succeeds (fun w => set_live (stored_flags w) w);
  tm_certify_me :=
    answer certify_me_succeeds
      (fun w => match live_flags w with
                | (a, p, _) => set_live (a, p, true) w
                end);
  tm_clear_sensitive_data := fun w => w;
  tm_delete := fun w => w;
  tm_flag := flag_of;
  serialized_policy_cert_ := fun _ => "policy-cert";
  private_auth_key_ := fun _ => tt;
  serialized_primary_admissions_cert_ := fun _ => "admissions-cert";
  chan_new := fun _ w => (0%nat, w);
  chan_destroy := fun _ w => w;
  chan_init_client_ssl :=
    fun _ _ _ _ _ _ => answer init_client_ssl_succeeds (fun w => w);
  peer_id_ := fun _ _ => "peer";
  peer_cert_ := fun _ _ => true;
  chan_write := fun _ _ _ w => w;
  chan_read := fun _ w => (peer_sends w, w);
  chan_close := fun _ w => w;
  server_dispatch := fun _ _ _ _ _ func => serve_one func
|}.

(** Everything succeeds, the policy store holds a certified trust state and
    the peer sends the expected reply. *)
Definition all_good : world := {|
  new_succeeds := true;
  init_policy_key_succeeds := true;
  initialize_enclave_succeeds := true;
  cold_init_succeeds := true;
  warm_restart_succeeds := true;
  certify_me_succeeds := true;
  init_client_ssl_succeeds := true;
  peer_sends := (27, server_msg);
  dispatch_returns := Some false;
  stored_flags := (true, true, true);
  live_flags := (false, false, false)
|}.

(** As [all_good], with another policy store. *)
Definition with_store (f : bool * bool * bool) : world := {|
  new_succeeds := true;
  init_policy_key_succeeds := true;
  initialize_enclave_succeeds := true;
  cold_init_succeeds := true;
  warm_restart_succeeds := true;
  certify_me_succeeds := true;
  init_client_ssl_succeeds := true;
  peer_sends := peer_sends all_good;
  dispatch_returns := Some false;
  stored_flags := f;
  live_flags := (false, false, false)
|}.

(** As [all_good], with another reply of the peer. *)
Definition with_reply (r : Z * string) : world := {|
  new_succeeds := true;
  init_policy_key_succeeds := true;
  initialize_enclave_succeeds := true;
  cold_init_succeeds := true;
  warm_restart_succeeds := true;
  certify_me_succeeds := true;
  init_client_ssl_succeeds := true;
  peer_sends := r;
  dispatch_returns := Some false;
  stored_flags := (true, true, true);
  live_flags := (false, false, false)
|}.

(** As [all_good], but the trust manager cannot be created. *)
Definition no_trust_manager : world := {|
  new_succeeds := false;
  init_policy_key_succeeds := true;
  initialize_enclave_succeeds := true;
  cold_init_succeeds := true;
  warm_restart_succeeds := true;
  certify_me_succeeds := true;
  init_client_ssl_succeeds := true;
  peer_sends := peer_sends all_good;
  dispatch_returns := Some false;
  stored_flags := (true, true, true);
  live_flags := (false, false, false)
|}.

(** As [all_good], but [warm_restart] fails. *)
Definition warm_restart_fails : world := {|
  new_succeeds := true;
  init_policy_key_succeeds := true;
  initialize_enclave_succeeds := true;
  cold_init_succeeds := true;
  warm_restart_succeeds := false;
  certify_me_succeeds := true;
  init_client_ssl_succeeds := true;
  peer_sends := peer_sends all_good;
  dispatch_returns := Some false;
  stored_flags := (true, true, true);
  live_flags := (false, false, false)
|}.

(** As [all_good], with another end of [server_dispatch]. *)
Definition with_dispatch (r : option bool) : world := {|
  new_succeeds := true;
  init_policy_key_succeeds := true;
  initialize_enclave_succeeds := true;
  cold_init_succeeds := true;
  warm_restart_succeeds := true;
  certify_me_succeeds := true;
  init_client_ssl_succeeds := true;
  peer_sends := peer_sends all_good;
  dispatch_returns := r;
  stored_flags := (true, true, true);
  live_flags := (false, false, false)
|}.

(** The expected reply followed by a NUL and one more character: 29
    characters in the [std::string]. *)
Definition reply_with_nul : string :=
  ("Hi from your secret server" ++ nl ++ String zero "x")%string.

Definition with_operation (op : string) : flags := {|
  FLAGS_print_all := false;
  FLAGS_operation := op;
  FLAGS_policy_host := "localhost";
  FLAGS_policy_port := 8123;
  FLAGS_data_dir := "./app1_data/";
  FLAGS_server_app_host := "localhost";
  FLAGS_server_app_port := 8124;
  FLAGS_policy_store_file := "store.bin";
  FLAGS_platform_file_name := "platform_file.bin";
  FLAGS_platform_attest_endorsement := "platform_attest_endorsement.bin";
  FLAGS_attest_key_file := "attest_key_file.bin";
  FLAGS_measurement_file := "example_app.measurement"
|}.

End Scripted.

End IsletExampleApp.

(** ** The measurement utility: measurement_init.cc *)

Module MeasurementInit.

Record flags : Type := {
  FLAGS_print_all : bool;
  FLAGS_test_measurement : bool;
  FLAGS_in_file : string;
  FLAGS_out_file : string
}.

Definition default_flags : flags := {|
  FLAGS_print_all := false;
  FLAGS_test_measurement := false;
  FLAGS_in_file := "test.exe";
  FLAGS_out_file := "binary_trusted_measurements_file.bin"
|}.

(** *** Integer conversions *)

(** [(byte)x]: [unsigned char]. *)
Definition to_byte (x : Z) : Z := x mod 256.

(** [(int)x]: 32 bits, two's complement. *)
Definition to_int (x : Z) : Z := (x + 2 ^ 31) mod 2 ^ 32 - 2 ^ 31.

(** An [int] passed where a [size_t] is expected (64 bits). *)
Definition to_size_t (x : Z) : Z := x mod 2 ^ 64.

(** *** fcntl.h and sys/stat.h (Linux values, octal in the headers) *)

Definition O_RDONLY : Z := 0.
Definition O_RDWR : Z := 2.
Definition O_CREAT : Z := 64.
Definition O_TRUNC : Z := 512.
Definition S_IFMT : Z := 61440.
Definition S_IFREG : Z := 32768.

(** What [stat] fills in, as far as the program looks at it. *)
Record stat_info : Type := {
  st_mode : Z;
  st_size : Z
}.

Definition S_ISREG (m : Z) : bool := Z.land m S_IFMT =? S_IFREG.

(** *** Arrays *)

(** [a[i] = v] for [i] inside the array. *)
Fixpoint array_set (a : list Z) (i : nat) (v : Z) : list Z :=
  match a, i with
  | [], _ => []
  | _ :: a', O => v :: a'
  | x :: a', S i' => x :: array_set a' i' v
  end.

(** A callee stores [bytes] at the start of the buffer [buf]. *)
Definition store (buf bytes : list Z) : list Z :=
  bytes ++ skipn (List.length bytes) buf.

(** *** Calls *)

Inductive call : Type :=
| Printf (text : string)
| Sys_open (path : string) (oflag : Z) (mode : option Z) (fd : Z)
| Sys_write (fd : Z) (buf : list Z) (count : Z) (r : Z)
| Sys_read (fd : Z) (count : Z) (r : Z) (bytes : list Z)
| Sys_close (fd : Z)
| Sys_stat (path : string) (r : option stat_info)
| Malloc (size : Z) (non_null : bool)
| Free
| EVP_MD_CTX_new (non_null : bool)
| EVP_DigestInit_ex (r : Z)
| EVP_DigestUpdate (message : list Z) (cnt : Z) (r : Z)
| EVP_DigestFinal_ex (r : Z) (md : list Z)
| EVP_MD_CTX_free.

(** The operating system, the C library and OpenSSL. [sys_stat] gives [None]
    when [stat] does not return 0. [sys_read] and [evp_digest_final_ex] give,
    with their return value, the bytes they stored in the caller's buffer.
    [indeterminate] is what fresh memory (an uninitialised local array, a
    block from [malloc]) holds. *)
Class System (W : Type) : Type := {
  sys_open : string -> Z -> option Z -> W -> Z * W;
  sys_write : Z -> list Z -> Z -> W -> Z * W;
  sys_read : Z -> Z -> W -> (Z * list Z) * W;
  sys_close : Z -> W -> W;
  sys_stat : string -> W -> option stat_info * W;
  sys_malloc : Z -> W -> bool * W;
  sys_free : W -> W;
  indeterminate : W -> nat -> Z;
  evp_md_ctx_new : W -> bool * W;
  evp_digest_init_ex : W -> Z * W;
  evp_digest_update : list Z -> Z -> W -> Z * W;
  evp_digest_final_ex : W -> (Z * list Z) * W;
  evp_md_ctx_free : W -> W
}.

Section Program.

Context {W : Type} {sys : System W}.

Abbreviation prog := (M W call).

Definition printf (text : string) : prog unit := emit (Printf text).

Definition close (fd : Z) : prog unit := perform (sys_close fd) (Sys_close fd).

(** Fresh memory of [n] bytes. *)
Definition fresh (n : nat) : prog (list Z) :=
  fun w => ret (map (fun i => to_byte (indeterminate w i)) (seq 0 n)) w.

(** [bool write_file(string file_name, int size, byte* data)] *)
Definition write_file (file_name : string) (size : Z) (data : list Z)
    : prog bool :=
  let oflag := Z.lor (Z.lor O_RDWR O_CREAT) O_TRUNC in
  out <- invoke (sys_open (c_str file_name) oflag (Some 420))
                (Sys_open (c_str file_name) oflag (Some 420));;
  if out <? 0 then ret false
  else
  r <- invoke (sys_write out data (to_size_t size))
              (Sys_write out data (to_size_t size));;
  if r <? 0 then
    (printf ("Can't write file" ++ nl);;
     close out;;
     ret false)
  else
    (close out;;
     ret true).

(** [int file_size(string file_name)]; [return false] in a function that
    returns [int] is [return 0]. *)
Definition file_size (file_name : string) : prog Z :=
  r <- invoke (sys_stat (c_str file_name)) (Sys_stat (c_str file_name));;
  match r with
  | None => ret 0
  | Some file_info =>
      if negb (S_ISREG (st_mode file_info)) then ret 0
      else ret (to_int (st_size file_info))
  end.

(** [bool read_file(string file_name, int* size, byte* data)]: the value is
    the result with [*size] and the buffer as they are on return. *)
Definition read_file (file_name : string) (size : Z) (data : list Z)
    : prog (bool * Z * list Z) :=
  r <- invoke (sys_stat (c_str file_name)) (Sys_stat (c_str file_name));;
  match r with
  | None => ret (false, size, data)
  | Some file_info =>
      if negb (S_ISREG (st_mode file_info)) then ret (false, size, data)
      else
      let bytes_in_file := to_int (st_size file_info) in
      if bytes_in_file >? size then ret (false, size, data)
      else
      fd <- invoke (sys_open (c_str file_name) O_RDONLY None)
                   (Sys_open (c_str file_name) O_RDONLY None);;
      if fd <? 0 then ret (false, size, data)
      else
      got <- invoke (sys_read fd (to_size_t bytes_in_file))
                    (fun got => Sys_read fd (to_size_t bytes_in_file)
                                  (fst got) (snd got));;
      let n := to_int (fst got) in
      close fd;;
      ret (true, n, store data (snd got))
  end.

(** [bool digest_message(const byte* message, int message_len, byte* digest,
    unsigned int digest_len)]: the value is the result with the digest
    buffer. The context is not freed on the failure paths. *)
Definition digest_message (message : list Z) (message_len : Z)
    (digest : list Z) (digest_len : Z) : prog (bool * list Z) :=
  mdctx <- invoke evp_md_ctx_new EVP_MD_CTX_new;;
  if negb mdctx then ret (false, digest)
  else
  r <- invoke evp_digest_init_ex EVP_DigestInit_ex;;
  if negb (r =? 1) then ret (false, digest)
  else
  r <- invoke (evp_digest_update message (to_size_t message_len))
              (EVP_DigestUpdate message (to_size_t message_len));;
  if negb (r =? 1) then ret (false, digest)
  else
  fin <- invoke evp_digest_final_ex
                (fun fin => EVP_DigestFinal_ex (fst fin) (snd fin));;
  let digest := store digest (snd fin) in
  if negb (fst fin =? 1) then ret (false, digest)
  else
  perform evp_md_ctx_free EVP_MD_CTX_free;;
  ret (true, digest).

Definition measurment_size : Z := 32.

(** The loop [for (int i = 0; i < measurment_size; i++) m[i] = (byte)i;] *)
Definition test_measurement (m : list Z) : list Z :=
  fold_left (fun m i => array_set m i (to_byte (Z.of_nat i)))
            (seq 0 (Z.to_nat measurment_size)) m.

(** [int main(int an, char** av)], after the flags are parsed. *)
Definition main (fl : flags) : prog Z :=
  (if FLAGS_print_all fl then
     ((if FLAGS_test_measurement fl
       then printf ("Generating test measurement" ++ nl)
       else printf ("Measuring " ++ c_str (FLAGS_in_file fl) ++ nl));;
      printf ("Output file: " ++ c_str (FLAGS_out_file fl) ++ nl))
   else ret tt);;
  m <- fresh (Z.to_nat measurment_size);;
  if FLAGS_test_measurement fl then
    (let m := test_measurement m in
     ok <- write_file (FLAGS_out_file fl) measurment_size m;;
     if negb ok then
       (printf ("Can't write " ++ c_str (FLAGS_out_file fl) ++ nl);;
        ret 1)
     else ret 0)
  else
  size <- file_size (FLAGS_in_file fl);;
  (if FLAGS_print_all fl
   then printf ("File size: " ++ NilZero.string_of_int (Z.to_int size) ++ nl)
   else ret tt);;
  non_null <- invoke (sys_malloc (to_size_t size)) (Malloc (to_size_t size));;
  if negb non_null then
    (printf ("Can't alloc" ++ nl);;
     ret 1)
  else
  file_contents <- fresh (Z.to_nat (to_size_t size));;
  rd <- read_file (FLAGS_in_file fl) size file_contents;;
  let '(ok, size, file_contents) := rd in
  if negb ok then
    (printf ("Can't read " ++ c_str (FLAGS_in_file fl) ++ nl);;
     perform sys_free Free;;
     ret 1)
  else
  dg <- digest_message file_contents size m measurment_size;;
  let '(ok, m) := dg in
  if negb ok then
    (printf ("Can't digest file" ++ nl);;
     perform sys_free Free;;
     ret 1)
  else
  ok <- write_file (FLAGS_out_file fl) measurment_size m;;
  if negb ok then
    (printf ("Can't write " ++ c_str (FLAGS_out_file fl) ++ nl);;
     perform sys_free Free;;
     ret 1)
  else
    (perform sys_free Free;;
     ret 0).

End Program.

(** *** What a list of calls contains *)

(** The calls that look at a file: [stat], [read], and [open] for reading. *)
Definition is_input_call (c : call) : bool :=
  match c with
  | Sys_stat _ _ | Sys_read _ _ _ _ => true
  | Sys_open _ oflag _ _ => oflag =? O_RDONLY
  | _ => false
  end.

(** The calls that create or change a file: [open] with [O_CREAT] or a
    writing access mode, and [write]. *)
Definition is_output_call (c : call) : bool :=
  match c with
  | Sys_write _ _ _ _ => true
  | Sys_open _ oflag _ _ => negb (oflag =? O_RDONLY)
  | _ => false
  end.

Definition is_printf (c : call) : bool :=
  match c with Printf _ => true | _ => false end.

(** A [malloc] that returned a block. *)
Definition is_malloc (c : call) : bool :=
  match c with Malloc _ non_null => non_null | _ => false end.

Definition is_free (c : call) : bool :=
  match c with Free => true | _ => false end.

Definition without_printf (t : list call) : list call :=
  filter (fun c => negb (is_printf c)) t.

Definition never (p : call -> bool) (t : list call) : Prop :=
  forall c, In c t -> p c = false.

Definition count (p : call -> bool) (t : list call) : nat :=
  List.length (filter p t).

Definition is_close (c : call) : bool :=
  match c with Sys_close _ => true | _ => false end.

Definition is_read (c : call) : bool :=
  match c with Sys_read _ _ _ _ => true | _ => false end.

Definition is_stat (c : call) : bool :=
  match c with Sys_stat _ _ => true | _ => false end.

(** An [open] that gave a descriptor. *)
Definition is_opened (c : call) : bool :=
  match c with Sys_open _ _ _ fd => negb (fd <? 0) | _ => false end.

(** A [write] that did not fail. *)
Definition is_written (c : call) : bool :=
  match c with Sys_write _ _ _ r => negb (r <? 0) | _ => false end.

(** Any [write]. *)
Definition is_write (c : call) : bool :=
  match c with Sys_write _ _ _ _ => true | _ => false end.

(** A [read] that failed. *)
Definition is_failed_read (c : call) : bool :=
  match c with Sys_read _ _ n _ => n <? 0 | _ => false end.

(** [EVP_DigestFinal_ex] returned 1. *)
Definition is_digest_done (c : call) : bool :=
  match c with EVP_DigestFinal_ex r _ => r =? 1 | _ => false end.

Definition is_digest_final (c : call) : bool :=
  match c with EVP_DigestFinal_ex _ _ => true | _ => false end.

Definition is_md_ctx_new (c : call) : bool :=
  match c with EVP_MD_CTX_new non_null => non_null | _ => false end.

Definition is_md_ctx_free (c : call) : bool :=
  match c with EVP_MD_CTX_free => true | _ => false end.

(** Every call of kind [q] comes after some call of kind [p]. *)
Fixpoint preceded_from (seen : bool) (p q : call -> bool) (t : list call)
    : bool :=
  match t with
  | [] => true
  | c :: t' => (negb (q c) || seen) && preceded_from (seen || p c) p q t'
  end.

Definition preceded_by (p q : call -> bool) (t : list call) : bool :=
  preceded_from false p q t.

(** The flags with another [FLAGS_print_all]. *)
Definition set_print_all (b : bool) (fl : flags) : flags := {|
  FLAGS_print_all := b;
  FLAGS_test_measurement := FLAGS_test_measurement fl;
  FLAGS_in_file := FLAGS_in_file fl;
  FLAGS_out_file := FLAGS_out_file fl
|}.

(** [stat] failed, or what it found is not a regular file. *)
Definition missing_or_not_regular (r : option stat_info) : bool :=
  match r with
  | None => true
  | Some file_info => negb (S_ISREG (st_mode file_info))
  end.

(** The bytes 0, 1, ..., 31. *)
Definition counting_bytes : list Z := map Z.of_nat (seq 0 32).

(** *** A small file system

    A world to run the program on concrete inputs: files by name with their
    mode and content, one descriptor (3) for the file opened last, a switch
    that makes every [open] for writing fail and one that makes every [write]
    fail. The digest is a fixed block of 32 bytes. *)
Module Scripted.

Record world : Type := {
  files : list (string * (Z * list Z));
  read_only : bool;
  disk_full : bool;
  opened : option string
}.

Fixpoint lookup (name : string) (fs : list (string * (Z * list Z)))
    : option (Z * list Z) :=
  match fs with
  | [] => None
  | (n, f) :: fs' => if (n =? name)%string then Some f else lookup name fs'
  end.

Fixpoint put (name : string) (f : Z * list Z)
    (fs : list (string * (Z * list Z))) : list (string * (Z * list Z)) :=
  match fs with
  | [] => [(name, f)]
  | (n, g) :: fs' =>
      if (n =? name)%string then (n, f) :: fs' else (n, g) :: put name f fs'
  end.

Definition regular_0644 : Z := Z.lor S_IFREG 420.

Definition open_ (path : string) (oflag : Z) (mode : option Z) (w : world)
    : Z * world :=
  if oflag =? O_RDONLY then
    match lookup path (files w) with
    | Some _ =>
        (3, {| files := files w; read_only := read_only w;
               disk_full := disk_full w; opened := Some path |})
    | None => (-1, w)
    end
  else if read_only w then (-1, w)
  else
    (3, {| files := put path (regular_0644, []) (files w);
           read_only := read_only w; disk_full := disk_full w;
           opened := Some path |}).

Definition write_ (fd : Z) (buf : list Z) (cnt : Z) (w : world) : Z * world :=
  match opened w with
  | Some path =>
      if disk_full w then (-1, w)
      else
        (cnt, {| files := put path (regular_0644, firstn (Z.to_nat cnt) buf)
                              (files w);
                 read_only := read_only w; disk_full := disk_full w;
                 opened := opened w |})
  | None => (-1, w)
  end.

Definition read_ (fd : Z) (cnt : Z) (w : world) : (Z * list Z) * world :=
  match opened w with
  | Some path =>
      match lookup path (files w) with
      | Some (_, content) =>
          let bytes := firstn (Z.to_nat cnt) content in
          ((Z.of_nat (List.length bytes), bytes), w)
      | None => ((-1, []), w)
      end
  | None => ((-1, []), w)
  end.

Definition stat_ (path : string) (w : world) : option stat_info * world :=
  match lookup path (files w) with
  | Some (mode, content) =>
      (Some {| st_mode := mode; st_size := Z.of_nat (List.length content) |},
       w)
  | None => (None, w)
  end.

#[global] Instance system : System world := {|
  sys_open := open_;
  sys_write := write_;
  sys_read := read_;
  sys_close := fun _ w =>
    {| files := files w; read_only := read_only w;
       disk_full := disk_full w; opened := None |};
  sys_stat := stat_;
  sys_malloc := fun _ w => (true, w);
  sys_free := fun w => w;
  indeterminate := fun _ _ => 204;
  evp_md_ctx_new := fun w => (true, w);
  evp_digest_init_ex := fun w => (1, w);
  evp_digest_update := fun _ _ w => (1, w);
  evp_digest_final_ex := fun w => ((1, repeat 170 32), w);
  evp_md_ctx_free := fun w => w
|}.

(** The same system on a disk that takes five bytes at most in one
    [write]: a longer request is cut short, and [write] returns 5. *)
Definition short_write_ (fd : Z) (buf : list Z) (cnt : Z) (w : world)
    : Z * world :=
  write_ fd buf (Z.min cnt 5) w.

Definition short_writes : System world := {|
  sys_open := open_;
  sys_write := short_write_;
  sys_read := read_;
  sys_close := fun _ w =>
    {| files := files w; read_only := read_only w;
       disk_full := disk_full w; opened := None |};
  sys_stat := stat_;
  sys_malloc := fun _ w => (true, w);
  sys_free := fun w => w;
  indeterminate := fun _ _ => 204;
  evp_md_ctx_new := fun w => (true, w);
  evp_digest_init_ex := fun w => (1, w);
  evp_digest_update := fun _ _ w => (1, w);
  evp_digest_final_ex := fun w => ((1, repeat 170 32), w);
  evp_md_ctx_free := fun w => w
|}.

(** No file at all. *)
Definition empty_disk : world := {|
  files := [];
  read_only := false;
  disk_full := false;
  opened := None
|}.

(** The input name is a directory. *)
Definition directory_disk : world := {|
  files := [("test.exe", (16877, []))];
  read_only := false;
  disk_full := false;
  opened := None
|}.

(** The input is a regular file of four bytes. *)
Definition file_disk : world := {|
  files := [("test.exe", (regular_0644, [127; 69; 76; 70]))];
  read_only := false;
  disk_full := false;
  opened := None
|}.

Definition test_flags : flags := {|
  FLAGS_print_all := true;
  FLAGS_test_measurement := true;
  FLAGS_in_file := "test.exe";
  FLAGS_out_file := "binary_trusted_measurements_file.bin"
|}.

Definition measure_flags : flags := {|
  FLAGS_print_all := true;
  FLAGS_test_measurement := false;
  FLAGS_in_file := "test.exe";
  FLAGS_out_file := "binary_trusted_measurements_file.bin"
|}.

End Scripted.

(** *** A system that fails

    A world without state: every name is a regular file of four bytes and
    [open] gives descriptor 3; the two switches make [malloc] return null and
    [read] return -1. *)
Module Faulty.

Record world : Type := {
  malloc_fails : bool;
  read_fails : bool
}.

Definition system : System world := {|
  sys_open := fun _ _ _ w => (3, w);
  sys_write := fun _ _ cnt w => (cnt, w);
  sys_read := fun _ _ w =>
    if read_fails w then ((-1, []), w) else ((4, [127; 69; 76; 70]), w);
  sys_close := fun _ w => w;
  sys_stat := fun _ w =>
    (Some {| st_mode := Z.lor S_IFREG 420; st_size := 4 |}, w);
  sys_malloc := fun _ w => (negb (malloc_fails w), w);
  sys_free := fun w => w;
  indeterminate := fun _ _ => 204;
  evp_md_ctx_new := fun w => (true, w);
  evp_digest_init_ex := fun w => (1, w);
  evp_digest_update := fun _ _ w => (1, w);
  evp_digest_final_ex := fun w => ((1, repeat 170 32), w);
  evp_md_ctx_free := fun w => w
|}.

Definition no_memory : world := {| malloc_fails := true; read_fails := false |}.
Definition bad_read : world := {| malloc_fails := false; read_fails := true |}.

End Faulty.

End MeasurementInit.

(** * Properties *)

(** ** C strings *)

Lemma string_compare_refl (s : string) : String.compare s s = Eq.
Proof.
  pose proof (String.compare_antisym s s) as H.
  destruct (String.compare s s); simpl in H; congruence.
Qed.

Lemma strcmp_zero (a b : string) : strcmp a b = 0 <-> c_str a = c_str b.
Proof.
  unfold strcmp. destruct (String.compare (c_str a) (c_str b)) eqn:E.
  - apply String.compare_eq_iff in E. tauto.
  - split; [discriminate|]. intros H. rewrite H, string_compare_refl in E.
    discriminate.
  - split; [discriminate|]. intros H. rewrite H, string_compare_refl in E.
    discriminate.
Qed.

(** ** The session handlers *)

Section Sessions.

Import IsletExampleApp.

Context {W Chan : Type} {collab : Collaborators W Chan}.

Lemma strlen_client_msg : strlen client_msg = 27.
Proof. reflexivity. Qed.

Lemma strlen_server_msg : strlen server_msg = 27.
Proof. reflexivity. Qed.

Lemma c_str_server_msg : c_str server_msg = server_msg.
Proof. reflexivity. Qed.

(** C5. The server session handler reads once, then writes
    "Hi from your secret server\n" (27 characters) once, then closes the
    channel, in this order and nothing else on the channel; it always returns
    (its type is [void], there is no failure to return), whatever length and
    content the read gave. The world it leaves is the one the channel's
    read, then write, then close produce from the world it was given. *)
Theorem C5_server_application_reads_writes_closes (channel : Chan) (w : W) :
  let run := server_application channel w in
  let got := fst (chan_read channel w) in
  without_printf (calls run)
  = [Channel_read channel (fst got) (snd got);
     Channel_write channel 27 server_msg;
     Channel_close channel]
  /\ result run = Some tt
  /\ final run
     = Some (chan_close channel
               (chan_write channel 27 server_msg
                  (snd (chan_read channel w)))).
Proof.
  cbv beta zeta delta [server_application print_peer bind invoke perform
    printf emit ret calls result final without_printf].
  rewrite strlen_server_msg.
  destruct (peer_cert_ channel w);
    destruct (chan_read channel w) as [[n out] w1];
    repeat split; reflexivity.
Qed.

(** The test of line 91. *)
Lemma reply_rejected_iff (n : Z) (out : string) :
  (n <? 0) || negb (strcmp out server_msg =? 0) = true
  <-> n < 0 \/ c_str out <> server_msg.
Proof.
  rewrite orb_true_iff, negb_true_iff, Z.ltb_lt, Z.eqb_neq, strcmp_zero,
    c_str_server_msg.
  tauto.
Qed.

(** C4 (amended). The client session handler writes once (the 27 characters
    of "Hi from your secret client\n"), then reads once, then closes the
    channel, in this order and nothing else on the channel, on every path. It
    returns, and returns failure exactly when the read gave a negative length
    or the C string read (the characters before the first NUL, which is what
    [strcmp] compares) differs from "Hi from your secret server\n". The
    world it leaves is the one the channel's write, then read, then close
    produce from the world it was given. *)
Theorem C4_client_application_exchange (channel : Chan) (w : W) :
  let run := client_application channel w in
  let got := fst (chan_read channel (chan_write channel 27 client_msg w)) in
  without_printf (calls run)
  = [Channel_write channel 27 client_msg;
     Channel_read channel (fst got) (snd got);
     Channel_close channel]
  /\ (exists ok : bool,
        result run = Some ok
        /\ (ok = false <-> fst got < 0 \/ c_str (snd got) <> server_msg))
  /\ final run
     = Some (chan_close channel
               (snd (chan_read channel
                       (chan_write channel 27 client_msg w)))).
Proof.
  cbv beta zeta delta [client_application print_peer bind invoke perform
    printf emit ret calls result final without_printf].
  rewrite strlen_client_msg.
  destruct (peer_cert_ channel w);
    destruct (chan_read channel (chan_write channel 27 client_msg w))
      as [[n out] w1];
    cbn [fst snd];
    pose proof (reply_rejected_iff n out) as Hrej;
    destruct ((n <? 0) || negb (strcmp out server_msg =? 0));
    (split; [reflexivity|]);
    (split; [|reflexivity]);
    [ exists false | exists true | exists false | exists true ];
    (split; [reflexivity|]);
    intuition congruence.
Qed.

End Sessions.

(** ** The operation dispatcher *)

Section Dispatcher.

Import IsletExampleApp.

Context {W Chan : Type} {collab : Collaborators W Chan}.

(** *** Lists of calls *)

Lemma count_app (p : call Chan -> bool) (t u : list (call Chan)) :
  count p (t ++ u) = (count p t + count p u)%nat.
Proof. unfold count. now rewrite filter_app, length_app. Qed.

Lemma never_app (p : call Chan -> bool) (t u : list (call Chan)) :
  never p (t ++ u) <-> never p t /\ never p u.
Proof.
  unfold never. split.
  - intros H. split; intros c Hc; apply H, in_or_app; tauto.
  - intros [Ht Hu] c Hc. apply in_app_or in Hc. destruct Hc; auto.
Qed.

Lemma never_count (p : call Chan -> bool) (t : list (call Chan)) :
  never p t <-> count p t = 0%nat.
Proof.
  unfold never, count. induction t as [|c t IH]; simpl.
  - split; [reflexivity | contradiction].
  - destruct (p c) eqn:E; simpl.
    + split; [|discriminate]. intros H.
      specialize (H c (or_introl eq_refl)). congruence.
    + rewrite <- IH. split.
      * intros H c' Hc'. apply H. now right.
      * intros H c' [<-|Hc']; auto.
Qed.

(** What [preceded_by] decides. *)
Lemma preceded_from_spec (p q : call Chan -> bool) (t : list (call Chan)) :
  forall seen,
    preceded_from seen p q t = true ->
    forall pre c post,
      t = pre ++ c :: post -> q c = true ->
      seen = true \/ exists c', In c' pre /\ p c' = true.
Proof.
  induction t as [|d t IH]; intros seen H pre c post Heq Hq.
  - destruct pre; discriminate.
  - simpl in H. apply andb_true_iff in H as [Hd Ht].
    destruct pre as [|e pre]; simpl in Heq; injection Heq as -> ->.
    + rewrite Hq in Hd. simpl in Hd. now left.
    + destruct (IH _ Ht pre c post eq_refl Hq) as [Hs|[c' [Hin Hp]]].
      * apply orb_true_iff in Hs as [->|Hp]; [now left|].
        right. exists e. simpl. tauto.
      * right. exists c'. simpl. tauto.
Qed.

Lemma preceded_by_spec (p q : call Chan -> bool) (t : list (call Chan)) :
  preceded_by p q t = true ->
  forall pre c post,
    t = pre ++ c :: post -> q c = true ->
    exists c', In c' pre /\ p c' = true.
Proof.
  intros H pre c post Heq Hq.
  destruct (preceded_from_spec p q t false H pre c post Heq Hq) as [?|?];
    [discriminate | assumption].
Qed.

(** *** Running [main] *)

Ltac unfold_program :=
  cbv beta zeta delta [main main_init main_operation main_done
    client_application print_peer print_usage read_flag
    bind invoke perform printf emit ret calls result final].

(** One step of a run: a case analysis on what the next call returns. *)
Ltac run_step :=
  match goal with
  | |- context [negb ?b] => is_var b; destruct b
  | |- context [if ?b then _ else _] => is_var b; destruct b
  | |- context [match ?o with Some _ => _ | None => _ end] =>
      is_var o; destruct o
  | |- context [negb (tm_flag ?f ?w)] => destruct (tm_flag f w) eqn:?
  | |- context [match ?x with pair _ _ => _ end] =>
      lazymatch x with
      | context [match _ with pair _ _ => _ end] => fail
      | context [if _ then _ else _] => fail
      | _ => destruct x as [? ?] eqn:?
      end
  | |- context [if ?c then _ else _] =>
      lazymatch c with
      | context [match _ with pair _ _ => _ end] => fail
      | context [if _ then _ else _] => fail
      | _ => destruct c eqn:?
      end
  end; simpl.

Ltac run := unfold_program; simpl; repeat run_step.

(** A list of calls written out holds no call of a kind. *)
Ltac never_in :=
  let c := fresh "c" in
  let H := fresh "H" in
  intros c H; simpl in H;
  repeat (destruct H as [<-|H]; [reflexivity|]);
  contradiction.

Ltac calls_facts :=
  simpl;
  repeat match goal with
         | |- _ /\ _ => split
         | |- _ <-> _ => split
         | |- never _ _ => never_in
         | |- forall _, _ => intro
         | H : exists _, _ |- _ => destruct H
         | H : _ /\ _ |- _ => destruct H
         end;
  simpl in *;
  try solve [ reflexivity | discriminate | lia | contradiction
            | intuition (discriminate || congruence || eauto 12) ].

(** The operations are told apart by [String.eqb]. *)
Lemma unrecognized_operation (op : string) :
  recognized_operation op = false ->
  (op =? "cold-init")%string = false
  /\ (op =? "get-certified")%string = false
  /\ (op =? "run-app-as-client")%string = false
  /\ (op =? "run-app-as-server")%string = false.
Proof.
  unfold recognized_operation. intros H.
  repeat (apply orb_false_iff in H as [H ?]). tauto.
Qed.

(** [main_init] makes calls of the initialisation only. *)
Lemma main_init_calls (fl : flags) (w : W) (c : call Chan) :
  In c (calls (main_init fl w)) -> is_init_call c = true.
Proof.
  run; intros H; simpl in H;
    repeat (destruct H as [<-|H]; [reflexivity|]); contradiction.
Qed.

Lemma main_init_never (p : call Chan -> bool) (fl : flags) (w : W) :
  (forall c, is_init_call c = true -> p c = false) ->
  never p (calls (main_init fl w)).
Proof. intros H c Hc. apply H. eapply main_init_calls, Hc. Qed.

(** Once the initialisation has fallen through, [main] is the operation
    followed by the label [done]. *)
Lemma main_after_init (av0 : string) (fl : flags) (w w0 : W)
    (t0 : list (call Chan)) :
  FLAGS_operation fl <> "" ->
  main_init fl w = (t0, Some (None, w0)) ->
  main av0 fl w
  = match main_operation fl w0 with
    | (t, None) => (t0 ++ t, None)
    | (t, Some (ret_, w1)) =>
        (t0 ++ t ++ [Clear_sensitive_data; Delete_trust_mgr],
         Some (ret_, tm_delete (tm_clear_sensitive_data w1)))
    end.
Proof.
  intros Hop Hinit. unfold main.
  apply String.eqb_neq in Hop. rewrite Hop.
  unfold bind at 1. rewrite Hinit.
  unfold bind at 1. destruct (main_operation fl w0) as [t [[ret_ w1]|]];
    reflexivity.
Qed.


(** C1 (amended). With an operation outside the recognized set, [main] calls
    neither [cold_init] nor [warm_restart] nor [certify_me], and nothing of a
    channel. [init_policy_key] and [initialize_enclave] come before the
    operation is looked at: each is called at most once, [init_policy_key]
    once the trust manager exists and [initialize_enclave] once
    [init_policy_key] has succeeded. When the initialisation succeeds the
    Unknown-operation error is printed. *)
Theorem C1_unrecognized_operation_calls (av0 : string) (fl : flags) (w : W) :
  recognized_operation (FLAGS_operation fl) = false ->
  let t := calls (main av0 fl w) in
  count is_cold_init t = 0%nat
  /\ count is_warm_restart t = 0%nat
  /\ count is_certify_me t = 0%nat
  /\ never is_channel_call t
  /\ (count is_init_policy_key t <= 1)%nat
  /\ (count is_initialize_enclave t <= 1)%nat
  /\ (forall e p s,
        In (New_cc_trust_manager e p s true) t ->
        count is_init_policy_key t = 1%nat)
  /\ (In (Init_policy_key true) t -> count is_initialize_enclave t = 1%nat)
  /\ (In (Initialize_enclave 0 true) t ->
      In (Printf unknown_operation_message) t).
Proof.
  intros H. apply unrecognized_operation in H as (H1 & H2 & H3 & H4).
  unfold_program. rewrite H1, H2, H3, H4.
  repeat run_step; calls_facts.
Qed.

(** C2 (amended). When [main] returns after the initialisation succeeded
    (trust manager created, [init_policy_key] and [initialize_enclave]
    returned true), whatever the operation and its outcome, its last two calls
    are [clear_sensitive_data] and the deletion of the trust manager, and
    [clear_sensitive_data] is not called before. When no trust manager was
    created, [clear_sensitive_data] is not called. *)
Theorem C2_clear_sensitive_data_at_done (av0 : string) (fl : flags) (w : W)
    (code : Z) :
  result (main av0 fl w) = Some code ->
  let t := calls (main av0 fl w) in
  (In (Initialize_enclave 0 true) t ->
   exists pre,
     t = pre ++ [Clear_sensitive_data; Delete_trust_mgr]
     /\ never is_clear_sensitive_data pre)
  /\ ((forall e p s, ~ In (New_cc_trust_manager e p s true) t) ->
      never is_clear_sensitive_data t).
Proof.
  unfold_program.
  repeat run_step; intros Hcode; try discriminate Hcode; (split; [intros Hi|intros Hn]).
  all: try solve [exfalso; simpl in Hi; intuition discriminate].
  all: try solve [never_in].
  all: try solve [exfalso; eapply Hn; simpl; eauto 12].
  all: try solve [
    match goal with
    | |- exists pre, ?t = _ /\ _ =>
        exists (removelast (removelast t)); simpl; split; [reflexivity|never_in]
    end ].
Qed.

(** What the initialisation leaves out, for a run that went through it. *)
Ltac init_never p Hinit :=
  match type of Hinit with
  | main_init ?fl ?w = (?t0, _) =>
      assert (Hnever : never p t0)
        by (replace t0 with (calls (main_init fl w))
              by (rewrite Hinit; reflexivity);
            apply main_init_never; intros []; simpl; intros;
            congruence)
  end.

Ltac after_init Hop Hinit :=
  match type of Hinit with
  | main_init ?fl ?w = (?t0, Some (None, ?w0)) =>
      rewrite (main_after_init _ fl w w0 t0);
      [ | rewrite Hop; discriminate | exact Hinit ];
      cbv beta zeta delta [main_operation client_application print_peer
        read_flag bind invoke perform printf emit ret calls result final];
      rewrite Hop; simpl
  end.

(** C3. In a run of run-app-as-client, [init_client_ssl] is called only after
    [warm_restart] returned true and the three flags were read as true. When
    the initialisation and [warm_restart] have succeeded and the three flags,
    as [warm_restart] left them, are not all true (any of the seven other
    combinations), [init_client_ssl] is never called and [main] returns 1;
    when they are all true, [init_client_ssl] is called once. *)
Theorem C3_client_opens_channel_only_when_certified (av0 : string)
    (fl : flags) (w : W) :
  FLAGS_operation fl = "run-app-as-client" ->
  let run := main av0 fl w in
  (forall c host port r,
      In (Init_client_ssl c host port r) (calls run) ->
      In (Warm_restart true) (calls run)
      /\ In (Read_flag cc_auth_key_initialized_ true) (calls run)
      /\ In (Read_flag cc_policy_info_initialized_ true) (calls run)
      /\ In (Read_flag primary_admissions_cert_valid_ true) (calls run))
  /\ (forall t0 w0 channel w1 w2,
        main_init fl w = (t0, Some (None, w0)) ->
        chan_new "client" w0 = (channel, w1) ->
        tm_warm_restart w1 = (true, w2) ->
        if tm_flag cc_auth_key_initialized_ w2
           && tm_flag cc_policy_info_initialized_ w2
           && tm_flag primary_admissions_cert_valid_ w2
        then count is_init_client_ssl (calls run) = 1%nat
        else never is_init_client_ssl (calls run) /\ result run = Some 1).
Proof.
  intros Hop run. subst run. split.
  - unfold_program. rewrite Hop. simpl. repeat run_step; calls_facts.
  - intros t0 w0 channel w1 w2 Hinit Hchan Hwarm.
    init_never (@is_init_client_ssl Chan) Hinit.
    after_init Hop Hinit. rewrite Hchan. simpl. rewrite Hwarm. simpl.
    repeat run_step;
      rewrite ?count_app, ?never_app;
      repeat split; try assumption; try never_in;
      try (rewrite (proj1 (never_count _ _) Hnever)); reflexivity.
Qed.

(** C6. In a run of get-certified, [main] returns; [certify_me] is called
    exactly when [warm_restart] returned true; when [warm_restart] returned
    false, [certify_me] is not called and [main] returns 1; when [certify_me]
    returned false, [main] returns 1; and when [main] returns 0,
    [warm_restart] returned true and [certify_me], called next, returned
    true. Each of the two is called at most once. Once the initialisation
    has succeeded, the run is decided by the trust manager: [warm_restart] is
    called on the world the initialisation left; if it returns false the
    calls of the operation are that one call, [main] returns 1 and leaves
    the world [warm_restart] produced, cleared and deleted; if it returns
    true, [certify_me] is called on the world [warm_restart] produced,
    [main] returns 0 or 1 as [certify_me] returns true or false, and leaves
    the world [certify_me] produced, cleared and deleted. *)
Theorem C6_get_certified_sequence (av0 : string) (fl : flags) (w : W) :
  FLAGS_operation fl = "get-certified" ->
  let run := main av0 fl w in
  (exists code, result run = Some code)
  /\ ((exists r, In (Certify_me r) (calls run))
      <-> In (Warm_restart true) (calls run))
  /\ (In (Warm_restart false) (calls run) ->
      count is_certify_me (calls run) = 0%nat /\ result run = Some 1)
  /\ (In (Certify_me false) (calls run) -> result run = Some 1)
  /\ (result run = Some 0 ->
      exists pre post,
        calls run = pre ++ Warm_restart true :: Certify_me true :: post)
  /\ (count is_warm_restart (calls run) <= 1)%nat
  /\ (count is_certify_me (calls run) <= 1)%nat
  /\ (forall t0 w0,
        main_init fl w = (t0, Some (None, w0)) ->
        match tm_warm_restart w0 with
        | (false, w1) =>
            without_printf (calls run)
            = without_printf t0
              ++ [Warm_restart false; Clear_sensitive_data; Delete_trust_mgr]
            /\ result run = Some 1
            /\ final run
               = Some (tm_delete (tm_clear_sensitive_data w1))
        | (true, w1) =>
            match tm_certify_me w1 with
            | (certified, w2) =>
                without_printf (calls run)
                = without_printf t0
                  ++ [Warm_restart true; Certify_me certified;
                      Clear_sensitive_data; Delete_trust_mgr]
                /\ result run = Some (if certified then 0 else 1)
                /\ final run
                   = Some (tm_delete (tm_clear_sensitive_data w2))
            end
        end).
Proof.
  intros Hop run. subst run.
  match goal with
  | |- ?A1 /\ ?A2 /\ ?A3 /\ ?A4 /\ ?A5 /\ ?A6 /\ ?A7 /\ ?P =>
      assert (Hworld : P);
      [ | assert (Htrace : A1 /\ A2 /\ A3 /\ A4 /\ A5 /\ A6 /\ A7);
          [ clear Hworld
          | destruct Htrace as (H1 & H2 & H3 & H4 & H5 & H6 & H7);
            exact (conj H1 (conj H2 (conj H3 (conj H4 (conj H5
                     (conj H6 (conj H7 Hworld))))))) ] ]
  end.
  - intros t0 w0 Hinit. after_init Hop Hinit.
    destruct (tm_warm_restart w0) as [[|] w1]; simpl.
    + destruct (tm_certify_me w1) as [[|] w2]; simpl;
        unfold without_printf; rewrite filter_app; repeat split.
    + unfold without_printf; rewrite filter_app; repeat split.
  - unfold_program. rewrite Hop. simpl. repeat run_step; calls_facts.
    all: try solve [eexists; reflexivity].
    all: try solve [eexists [_; _; _; _], _; reflexivity].
Qed.

(** C7. In a run of run-app-as-client or run-app-as-server, every read of a
    trust-manager flag and every call of [init_client_ssl] or
    [server_dispatch] comes after a call of [warm_restart]; and when
    [warm_restart] returned false, or was not reached, neither
    [init_client_ssl] nor [server_dispatch] is called. Once the
    initialisation has succeeded, [warm_restart] is invoked, exactly once: on
    the world the initialisation left (server), or on that world after the
    client's channel object was constructed (client); and when it returns
    false no flag is read, no channel opened, no listen started, [main]
    returns 1 and leaves the world [warm_restart] produced (the client's
    channel object destroyed), cleared and deleted. *)
Theorem C7_warm_restart_before_checks_and_channel (av0 : string)
    (fl : flags) (w : W) :
  FLAGS_operation fl = "run-app-as-client"
  \/ FLAGS_operation fl = "run-app-as-server" ->
  let run := main av0 fl w in
  let t := calls run in
  (forall pre c post,
      t = pre ++ c :: post ->
      is_read_flag c || is_open_or_listen c = true ->
      exists c', In c' pre /\ is_warm_restart c' = true)
  /\ (In (Warm_restart false) t -> never is_open_or_listen t)
  /\ (~ In (Warm_restart true) t -> never is_open_or_listen t)
  /\ (FLAGS_operation fl = "run-app-as-client" ->
      forall t0 w0,
        main_init fl w = (t0, Some (None, w0)) ->
        match chan_new "client" w0 with
        | (channel, w1) =>
            match tm_warm_restart w1 with
            | (restarted, w2) =>
                count is_warm_restart t = 1%nat
                /\ In (Warm_restart restarted) t
                /\ (restarted = false ->
                    never is_read_flag t
                    /\ never is_open_or_listen t
                    /\ result run = Some 1
                    /\ final run
                       = Some (tm_delete
                                 (tm_clear_sensitive_data
                                    (chan_destroy channel w2))))
            end
        end)
  /\ (FLAGS_operation fl = "run-app-as-server" ->
      forall t0 w0,
        main_init fl w = (t0, Some (None, w0)) ->
        match tm_warm_restart w0 with
        | (restarted, w1) =>
            count is_warm_restart t = 1%nat
            /\ In (Warm_restart restarted) t
            /\ (restarted = false ->
                never is_read_flag t
                /\ never is_open_or_listen t
                /\ result run = Some 1
                /\ final run
                   = Some (tm_delete (tm_clear_sensitive_data w1)))
        end).
Proof.
  intros Hop run t. subst t run.
  split; [|split; [|split; [|split]]].
  - apply preceded_by_spec.
    destruct Hop as [Hop|Hop];
      unfold_program; rewrite Hop; simpl; repeat run_step; reflexivity.
  - destruct Hop as [Hop|Hop];
      unfold_program; rewrite Hop; simpl; repeat run_step; calls_facts.
  - destruct Hop as [Hop|Hop];
      unfold_program; rewrite Hop; simpl; repeat run_step; calls_facts.
  - clear Hop. intros Hop t0 w0 Hinit.
    assert (H0 : never is_warm_restart t0 /\ never is_read_flag t0
                 /\ never is_open_or_listen t0).
    { replace t0 with (calls (main_init fl w))
        by (rewrite Hinit; reflexivity).
      repeat split; apply main_init_never; intros []; simpl; intros;
        solve [reflexivity | congruence]. }
    destruct H0 as (Hw & Hr & Ho).
    after_init Hop Hinit.
    destruct (chan_new "client" w0) as [channel w1]; simpl.
    destruct (tm_warm_restart w1) as [[|] w2]; simpl;
      repeat run_step;
      rewrite ?count_app, ?(proj1 (never_count _ _) Hw);
      (split; [reflexivity|]);
      (split; [apply in_or_app; right; simpl; tauto|]);
      intros Hf; try discriminate Hf;
      rewrite ?never_app;
      repeat split; try assumption; never_in.
  - clear Hop. intros Hop t0 w0 Hinit.
    assert (H0 : never is_warm_restart t0 /\ never is_read_flag t0
                 /\ never is_open_or_listen t0).
    { replace t0 with (calls (main_init fl w))
        by (rewrite Hinit; reflexivity).
      repeat split; apply main_init_never; intros []; simpl; intros;
        solve [reflexivity | congruence]. }
    destruct H0 as (Hw & Hr & Ho).
    after_init Hop Hinit.
    destruct (tm_warm_restart w0) as [[|] w1]; simpl;
      repeat run_step;
      rewrite ?count_app, ?(proj1 (never_count _ _) Hw);
      (split; [reflexivity|]);
      (split; [apply in_or_app; right; simpl; tauto|]);
      intros Hf; try discriminate Hf;
      rewrite ?never_app;
      repeat split; try assumption; never_in.
Qed.

(** C8. In a run of run-app-as-server, the only flag of the trust manager
    that is read is [primary_admissions_cert_valid_]; when it is read as
    false, [server_dispatch] is not called and [main] returns 1. When the
    initialisation and [warm_restart] have succeeded, [server_dispatch] is
    called (once) exactly when that flag, as [warm_restart] left it, is true,
    whatever the two other flags are; otherwise [main] returns 1. *)
Theorem C8_server_checks_admissions_cert_only (av0 : string) (fl : flags)
    (w : W) :
  FLAGS_operation fl = "run-app-as-server" ->
  let run := main av0 fl w in
  (forall f v,
      In (Read_flag f v) (calls run) -> f = primary_admissions_cert_valid_)
  /\ (In (Read_flag primary_admissions_cert_valid_ false) (calls run) ->
      never is_server_dispatch (calls run) /\ result run = Some 1)
  /\ (forall t0 w0 w1,
        main_init fl w = (t0, Some (None, w0)) ->
        tm_warm_restart w0 = (true, w1) ->
        if tm_flag primary_admissions_cert_valid_ w1
        then count is_server_dispatch (calls run) = 1%nat
        else never is_server_dispatch (calls run) /\ result run = Some 1).
Proof.
  intros Hop run. subst run. split; [|split].
  - unfold_program. rewrite Hop. simpl. repeat run_step; calls_facts.
  - unfold_program. rewrite Hop. simpl. repeat run_step; calls_facts.
  - intros t0 w0 w1 Hinit Hwarm.
    init_never (@is_server_dispatch Chan) Hinit.
    after_init Hop Hinit. rewrite Hwarm. simpl.
    repeat run_step;
      rewrite ?count_app, ?never_app;
      repeat split; try assumption; try never_in;
      try (rewrite (proj1 (never_count _ _) Hnever)); reflexivity.
Qed.

End Dispatcher.

(** ** The measurement utility *)

Section Measurement.

Import MeasurementInit.

Context {W : Type} {sys : System W}.

(** The loop of the test measurement overwrites whatever the array held. *)
Lemma test_measurement_bytes (g : nat -> Z) :
  test_measurement
    (map (fun i => to_byte (g i)) (seq 0 (Z.to_nat measurment_size)))
  = counting_bytes.
Proof. reflexivity. Qed.

Lemma counting_bytes_length : List.length counting_bytes = 32%nat.
Proof. reflexivity. Qed.

Lemma counting_bytes_nth (i : nat) :
  (i < 32)%nat -> nth i counting_bytes 0 = Z.of_nat i.
Proof.
  intros Hi. unfold counting_bytes.
  change (nth i (map Z.of_nat (seq 0 32)) (Z.of_nat 0) = Z.of_nat i).
  rewrite map_nth, seq_nth; [reflexivity | assumption].
Qed.

Ltac never_in :=
  let c := fresh "c" in
  let H := fresh "H" in
  intros c H; simpl in H;
  repeat (destruct H as [<-|H]; [reflexivity|]);
  contradiction.

(** C9 (amended). With --test_measurement=true, [main] opens the output
    file (O_RDWR|O_CREAT|O_TRUNC, mode 0644) and, when the descriptor is not
    negative, passes to one [write] the 32 bytes 0, 1, ..., 31 (byte [i] is
    [i]) with count 32, then closes; it makes no [stat], no [read] and no
    [open] for reading; it returns 0 when the descriptor and the result of
    [write] are not negative (whatever number of bytes [write] reports) and 1
    otherwise. The world it leaves is the one [open], then [write], then
    [close] produce from the world it was given. *)
Theorem C9_test_measurement_written (fl : flags) (w : W) :
  FLAGS_test_measurement fl = true ->
  let run := main fl w in
  let path := c_str (FLAGS_out_file fl) in
  let opened := sys_open path 578 (Some 420) w in
  let fd := fst opened in
  let written := sys_write fd counting_bytes 32 (snd opened) in
  let r := fst written in
  never is_input_call (calls run)
  /\ List.length counting_bytes = 32%nat
  /\ (forall i, (i < 32)%nat -> nth i counting_bytes 0 = Z.of_nat i)
  /\ (if fd <? 0
      then without_printf (calls run) = [Sys_open path 578 (Some 420) fd]
           /\ result run = Some 1
      else without_printf (calls run)
           = [Sys_open path 578 (Some 420) fd;
              Sys_write fd counting_bytes 32 r;
              Sys_close fd]
           /\ result run = Some (if r <? 0 then 1 else 0))
  /\ final run
     = Some (if fd <? 0 then snd opened
             else sys_close fd (snd written)).
Proof.
  intros Htest run path opened fd written r. subst run path opened fd r written.
  cbv beta iota zeta delta [main write_file close fresh bind invoke perform
    printf emit ret calls result final without_printf].
  rewrite Htest.
  destruct (FLAGS_print_all fl); cbv beta iota;
    rewrite test_measurement_bytes;
    change (to_size_t measurment_size) with 32;
    change (Z.lor (Z.lor O_RDWR O_CREAT) O_TRUNC) with 578;
    destruct (sys_open (c_str (FLAGS_out_file fl)) 578 (Some 420) w)
      as [fd w1];
    cbn [fst snd];
    (destruct (fd <? 0) eqn:Efd;
     [| destruct (sys_write fd counting_bytes 32 w1) as [r w2];
        cbn [fst snd]; destruct (r <? 0) eqn:Er ]);
    simpl; rewrite ?Efd; simpl;
    (split; [never_in|]);
    (split; [exact counting_bytes_length|]);
    (split; [exact counting_bytes_nth|]);
    (split; [split; reflexivity|]);
    reflexivity.
Qed.

(** [file_size] and [read_file] on a name that [stat] does not find, or
    finds not to be a regular file. *)
Lemma file_size_missing (name : string) (w : W) :
  missing_or_not_regular (fst (sys_stat (c_str name) w)) = true ->
  file_size name w
  = ([Sys_stat (c_str name) (fst (sys_stat (c_str name) w))],
     Some (0, snd (sys_stat (c_str name) w))).
Proof.
  unfold file_size, bind, invoke, ret, missing_or_not_regular.
  destruct (sys_stat (c_str name) w) as [[info|] w1]; cbn [fst snd];
    [intros ->|]; reflexivity.
Qed.

Lemma read_file_missing (name : string) (size : Z) (data : list Z) (w : W) :
  missing_or_not_regular (fst (sys_stat (c_str name) w)) = true ->
  read_file name size data w
  = ([Sys_stat (c_str name) (fst (sys_stat (c_str name) w))],
     Some ((false, size, data), snd (sys_stat (c_str name) w))).
Proof.
  unfold read_file, bind, invoke, ret, missing_or_not_regular.
  destruct (sys_stat (c_str name) w) as [[info|] w1]; cbn [fst snd];
    [intros ->|]; reflexivity.
Qed.

(** C10. Without --test_measurement, when [stat] on the input file fails or
    reports something else than a regular file (both times the program looks:
    in [file_size] and in [read_file]), [main] returns 1 and makes no [write]
    and no [open]: [file_size] returns 0, [malloc(0)] is called, and either it
    returns null and [main] leaves, or [read_file] calls [stat] again,
    returns false, and [main] frees the buffer and leaves. *)
Theorem C10_missing_input_writes_nothing (fl : flags) (w : W) :
  FLAGS_test_measurement fl = false ->
  let path := c_str (FLAGS_in_file fl) in
  let w1 := snd (sys_stat path w) in
  let w2 := snd (sys_malloc 0 w1) in
  missing_or_not_regular (fst (sys_stat path w)) = true ->
  missing_or_not_regular (fst (sys_stat path w2)) = true ->
  let run := main fl w in
  result run = Some 1
  /\ never is_output_call (calls run)
  /\ result (file_size (FLAGS_in_file fl) w) = Some 0
  /\ result (read_file (FLAGS_in_file fl) 0 [] w2) = Some (false, 0, [])
  /\ calls (read_file (FLAGS_in_file fl) 0 [] w2)
     = [Sys_stat path (fst (sys_stat path w2))]
  /\ without_printf (calls run)
     = Sys_stat path (fst (sys_stat path w))
       :: if fst (sys_malloc 0 w1)
          then [Malloc 0 true; Sys_stat path (fst (sys_stat path w2)); Free]
          else [Malloc 0 false].
Proof.
  intros Htest path w1 w2 H1 H2 run. subst run path w1 w2.
  rewrite (read_file_missing _ 0 [] _ H2), (file_size_missing _ _ H1).
  cbv beta iota zeta delta [main fresh bind invoke perform printf emit ret
    calls result without_printf].
  rewrite Htest.
  destruct (FLAGS_print_all fl); cbv beta iota;
    rewrite (file_size_missing _ _ H1); cbv beta iota;
    change (to_size_t 0) with 0;
    destruct (sys_malloc 0 (snd (sys_stat (c_str (FLAGS_in_file fl)) w)))
      as [[|] w2] eqn:Em;
    cbn [fst snd negb] in *; cbv beta iota;
    rewrite ?(read_file_missing _ _ _ _ H2);
    simpl; (split; [reflexivity|]); (split; [never_in|]);
    repeat split; reflexivity.
Qed.

(** One step of a run: a case analysis on what the next call returns. *)
Ltac run_step :=
  match goal with
  | |- context [negb ?b] => is_var b; destruct b
  | |- context [if ?b then _ else _] => is_var b; destruct b
  | |- context [match ?o with Some _ => _ | None => _ end] =>
      is_var o; destruct o
  | |- context [match ?x with pair _ _ => _ end] =>
      lazymatch x with
      | context [match _ with pair _ _ => _ end] => fail
      | context [if _ then _ else _] => fail
      | _ => destruct x as [? ?] eqn:?
      end
  | |- context [if ?c then _ else _] =>
      lazymatch c with
      | context [match _ with pair _ _ => _ end] => fail
      | context [if _ then _ else _] => fail
      | _ => destruct c eqn:?
      end
  end; cbn -[Z.ltb Z.gtb Z.eqb to_int to_size_t to_byte Z.to_nat S_ISREG
             test_measurement].

(** On every path of [main], the buffer is freed exactly when [malloc] gave
    one. *)
Lemma main_frees_the_buffer (fl : flags) (w : W) :
  let t := calls (main fl w) in
  count is_free t = count is_malloc t.
Proof.
  cbv beta iota zeta delta [main write_file file_size read_file
    digest_message close fresh bind invoke perform printf emit ret calls
    result].
  repeat run_step; reflexivity.
Qed.

End Measurement.

(** ** Runs on the scripted collaborators *)

Section IsletRuns.

Import IsletExampleApp.

(** End-to-end scenario 1: a certified client gets the expected reply. *)
Example client_success :
  let run := main "app" (Scripted.with_operation "run-app-as-client")
               Scripted.all_good in
  result run = Some 0
  /\ filter is_channel_call (calls run)
     = [New_channel "client" 0%nat;
        Init_client_ssl 0%nat "localhost" 8124 true;
        Channel_write 0%nat 27 client_msg;
        Channel_read 0%nat 27 server_msg;
        Channel_close 0%nat;
        Destroy_channel 0%nat].
Proof. split; reflexivity. Qed.

(** End-to-end scenario 2: the reply is another message. *)
Example client_mismatch :
  let run := main "app" (Scripted.with_operation "run-app-as-client")
               (Scripted.with_reply (14, "wrong message" ++ nl)%string) in
  result run = Some 1
  /\ count (fun c => match c with Channel_close _ => true | _ => false end)
       (calls run) = 1%nat.
Proof. split; reflexivity. Qed.

(** C1, as the claim states it, fails on the operation "bogus" with
    collaborators that all succeed: [main] returns 0, and it has called
    [init_policy_key] and [initialize_enclave]. *)
Lemma C1_counterexample_bogus_operation :
  let run := main "app" (Scripted.with_operation "bogus") Scripted.all_good in
  recognized_operation "bogus" = false
  /\ ~ (exists code, result run = Some code /\ code <> 0)
  /\ ~ never is_lifecycle_call (calls run).
Proof.
  intros run. split; [reflexivity|]. split.
  - intros [code [Hrun Hcode]]. vm_compute in Hrun.
    injection Hrun as <-. now apply Hcode.
  - intros H. specialize (H (Init_policy_key true)).
    discriminate H. simpl. tauto.
Qed.

(** C1 on that run. *)
Lemma C1_witness_bogus_operation :
  recognized_operation (FLAGS_operation (Scripted.with_operation "bogus"))
  = false
  /\ (let t := calls (main "app" (Scripted.with_operation "bogus")
                       Scripted.all_good) in
      count is_cold_init t = 0%nat
      /\ count is_warm_restart t = 0%nat
      /\ count is_certify_me t = 0%nat
      /\ never is_channel_call t
      /\ (count is_init_policy_key t <= 1)%nat
      /\ (count is_initialize_enclave t <= 1)%nat
      /\ (forall e p s,
            In (New_cc_trust_manager e p s true) t ->
            count is_init_policy_key t = 1%nat)
      /\ (In (Init_policy_key true) t ->
          count is_initialize_enclave t = 1%nat)
      /\ (In (Initialize_enclave 0 true) t ->
          In (Printf unknown_operation_message) t)).
Proof.
  split; [reflexivity|].
  exact (C1_unrecognized_operation_calls "app"
           (Scripted.with_operation "bogus") Scripted.all_good eq_refl).
Defined.

(** C2, as the claim states it, fails on two exit paths on which there is no
    trust manager to clear: the usage display (no operation given, exit 0) and
    the failure to create the trust manager (exit 1). *)
Lemma C2_counterexample_no_trust_manager :
  let usage_run := main "app" (Scripted.with_operation "") Scripted.all_good in
  let failed_new := main "app" (Scripted.with_operation "cold-init")
                      Scripted.no_trust_manager in
  (result usage_run = Some 0
   /\ ~ In Clear_sensitive_data (calls usage_run))
  /\ (result failed_new = Some 1
      /\ ~ In Clear_sensitive_data (calls failed_new)).
Proof.
  intros usage_run failed_new.
  split; (split; [reflexivity|]); simpl; intuition discriminate.
Qed.

(** C2 on a run of cold-init in which everything succeeds. *)
Lemma C2_witness_cold_init :
  let run := main "app" (Scripted.with_operation "cold-init")
               Scripted.all_good in
  result run = Some 0
  /\ exists pre,
       calls run = pre ++ [Clear_sensitive_data; Delete_trust_mgr]
       /\ never is_clear_sensitive_data pre.
Proof.
  split; [reflexivity|].
  apply (C2_clear_sensitive_data_at_done (collab := Scripted.collaborators)
           "app"
           (Scripted.with_operation "cold-init") Scripted.all_good 0
           (@eq_refl _ (Some 0))).
  simpl. do 3 right. left. reflexivity.
Defined.

(** C3 on a run in which the policy store holds keys and policy but no valid
    admissions certificate. *)
Lemma C3_witness_not_certified :
  let fl := Scripted.with_operation "run-app-as-client" in
  let run := main "app" fl (Scripted.with_store (true, true, false)) in
  FLAGS_operation fl = "run-app-as-client"
  /\ never is_init_client_ssl (calls run)
  /\ result run = Some 1.
Proof.
  split; [reflexivity|].
  exact (proj2 (C3_client_opens_channel_only_when_certified "app"
                  (Scripted.with_operation "run-app-as-client")
                  (Scripted.with_store (true, true, false)) eq_refl)
           _ _ _ _ _ eq_refl eq_refl eq_refl).
Defined.

(** C4, as the claim states it, fails: the peer sends the expected message
    followed by a NUL and one more character (read returns 29). The content
    read differs from the expected message, and the handler returns success,
    since [strcmp] stops at the NUL. *)
Lemma C4_counterexample_reply_with_nul :
  let w := Scripted.with_reply (29, Scripted.reply_with_nul) in
  let run := client_application 0%nat w in
  let got := fst (chan_read 0%nat (chan_write 0%nat 27 client_msg w)) in
  ~ (exists ok : bool,
       result run = Some ok
       /\ (ok = false <-> fst got < 0 \/ snd got <> server_msg)).
Proof.
  intros w run got [ok [Hrun Hok]].
  vm_compute in Hrun. injection Hrun as <-.
  assert (H : true = false); [|discriminate H].
  apply Hok. right. vm_compute. discriminate.
Qed.

(** C6 on a run in which everything succeeds. *)
Lemma C6_witness_certified :
  let fl := Scripted.with_operation "get-certified" in
  let run := main "app" fl Scripted.all_good in
  FLAGS_operation fl = "get-certified"
  /\ result run = Some 0
  /\ exists pre post,
       calls run = pre ++ Warm_restart true :: Certify_me true :: post.
Proof.
  split; [reflexivity|]. split; [reflexivity|].
  apply (C6_get_certified_sequence (collab := Scripted.collaborators) "app"
           (Scripted.with_operation "get-certified") Scripted.all_good
           eq_refl).
  reflexivity.
Defined.

(** C7 on a run of the client in which [warm_restart] fails. *)
Lemma C7_witness_warm_restart_fails :
  let fl := Scripted.with_operation "run-app-as-client" in
  let run := main "app" fl Scripted.warm_restart_fails in
  (FLAGS_operation fl = "run-app-as-client"
   \/ FLAGS_operation fl = "run-app-as-server")
  /\ count is_warm_restart (calls run) = 1%nat
  /\ In (Warm_restart false) (calls run)
  /\ never is_read_flag (calls run)
  /\ never is_open_or_listen (calls run)
  /\ result run = Some 1
  /\ final run = Some Scripted.warm_restart_fails.
Proof.
  split; [left; reflexivity|].
  pose proof (proj1 (proj2 (proj2 (proj2
                (C7_warm_restart_before_checks_and_channel
                   (collab := Scripted.collaborators) "app"
                   (Scripted.with_operation "run-app-as-client")
                   Scripted.warm_restart_fails (or_introl eq_refl)))))
                eq_refl _ _ eq_refl) as (H1 & H2 & H3).
  exact (conj H1 (conj H2 (H3 eq_refl))).
Defined.

(** C8 on a run of the server (end-to-end scenario 4): the policy store has
    no valid admissions certificate. *)
Lemma C8_witness_no_admissions_cert :
  let fl := Scripted.with_operation "run-app-as-server" in
  let run := main "app" fl (Scripted.with_store (true, true, false)) in
  FLAGS_operation fl = "run-app-as-server"
  /\ never is_server_dispatch (calls run)
  /\ result run = Some 1.
Proof.
  split; [reflexivity|].
  exact (proj2 (proj2 (C8_server_checks_admissions_cert_only "app"
                         (Scripted.with_operation "run-app-as-server")
                         (Scripted.with_store (true, true, false)) eq_refl))
           _ _ _ eq_refl eq_refl).
Defined.

End IsletRuns.

Section MeasurementRuns.

Import MeasurementInit.

(** C9 on a run: the output file is created on an empty disk. *)
Lemma C9_witness_empty_disk :
  let run := main Scripted.test_flags Scripted.empty_disk in
  FLAGS_test_measurement Scripted.test_flags = true
  /\ without_printf (calls run)
     = [Sys_open "binary_trusted_measurements_file.bin" 578 (Some 420) 3;
        Sys_write 3 counting_bytes 32 32;
        Sys_close 3]
  /\ result run = Some 0.
Proof.
  split; [reflexivity|].
  exact (proj1 (proj2 (proj2 (proj2
           (C9_test_measurement_written Scripted.test_flags
              Scripted.empty_disk eq_refl))))).
Defined.

(** C9, as the claim states it, fails when [write] is cut short: on a disk
    that takes five bytes, [write] returns 5, which is not negative, so
    [write_file] returns true and [main] returns 0; the output file holds the
    bytes 0 to 4, not 32 bytes. *)
Lemma C9_counterexample_short_write :
  let run := main (sys := Scripted.short_writes) Scripted.test_flags
               Scripted.empty_disk in
  FLAGS_test_measurement Scripted.test_flags = true
  /\ result run = Some 0
  /\ In (Sys_write 3 counting_bytes 32 5) (calls run)
  /\ option_map (fun w => Scripted.lookup
                            "binary_trusted_measurements_file.bin"
                            (Scripted.files w)) (final run)
     = Some (Some (Scripted.regular_0644, [0; 1; 2; 3; 4]))
  /\ ~ (result run = Some 0 ->
        exists w',
          final run = Some w'
          /\ Scripted.lookup "binary_trusted_measurements_file.bin"
               (Scripted.files w')
             = Some (Scripted.regular_0644, counting_bytes)).
Proof.
  intros run.
  split; [reflexivity|]. split; [reflexivity|].
  split; [simpl; repeat (first [left; reflexivity | right])|].
  split; [reflexivity|].
  intros H. destruct (H eq_refl) as [w' [Hfinal Hfile]].
  vm_compute in Hfinal. injection Hfinal as <-.
  vm_compute in Hfile. discriminate Hfile.
Qed.

(** The file that run leaves on the disk. *)
Example test_measurement_file :
  option_map Scripted.files
    (final (main Scripted.test_flags Scripted.empty_disk))
  = Some [("binary_trusted_measurements_file.bin",
           (Scripted.regular_0644, counting_bytes))].
Proof. reflexivity. Qed.

(** C10 on a run: the input name is a directory. *)
Lemma C10_witness_directory :
  let fl := Scripted.measure_flags in
  let w := Scripted.directory_disk in
  let path := c_str (FLAGS_in_file fl) in
  let w2 := snd (sys_malloc 0 (snd (sys_stat path w))) in
  let run := main fl w in
  FLAGS_test_measurement fl = false
  /\ missing_or_not_regular (fst (sys_stat path w)) = true
  /\ missing_or_not_regular (fst (sys_stat path w2)) = true
  /\ result run = Some 1
  /\ never is_output_call (calls run).
Proof.
  split; [reflexivity|]. split; [reflexivity|]. split; [reflexivity|].
  pose proof (C10_missing_input_writes_nothing Scripted.measure_flags
                Scripted.directory_disk eq_refl eq_refl eq_refl) as H.
  exact (conj (proj1 H) (proj1 (proj2 H))).
Defined.

End MeasurementRuns.

(** ** More on the operation dispatcher *)

Section DispatcherPaths.

Import IsletExampleApp.

Context {W Chan : Type} {collab : Collaborators W Chan}.

Ltac unfold_program :=
  cbv beta zeta delta [main main_init main_operation main_done
    client_application print_peer print_usage read_flag
    bind invoke perform printf emit ret calls result final].

Ltac run_step :=
  match goal with
  | |- context [negb ?b] => is_var b; destruct b
  | |- context [if ?b then _ else _] => is_var b; destruct b
  | |- context [match ?o with Some _ => _ | None => _ end] =>
      is_var o; destruct o
  | |- context [negb (tm_flag ?f ?w)] => destruct (tm_flag f w) eqn:?
  | |- context [match ?x with pair _ _ => _ end] =>
      lazymatch x with
      | context [match _ with pair _ _ => _ end] => fail
      | context [if _ then _ else _] => fail
      | _ => destruct x as [? ?] eqn:?
      end
  | |- context [if ?c then _ else _] =>
      lazymatch c with
      | context [match _ with pair _ _ => _ end] => fail
      | context [if _ then _ else _] => fail
      | _ => destruct c eqn:?
      end
  end; simpl.

Ltac never_in :=
  let c := fresh "c" in
  let H := fresh "H" in
  intros c H; simpl in H;
  repeat (destruct H as [<-|H]; [reflexivity|]);
  contradiction.

Ltac calls_facts :=
  simpl;
  repeat match goal with
         | |- _ /\ _ => split
         | |- _ <-> _ => split
         | |- never _ _ => never_in
         | |- forall _, _ => intro
         | H : exists _, _ |- _ => destruct H
         | H : _ /\ _ |- _ => destruct H
         end;
  simpl in *;
  try solve [ reflexivity | discriminate | lia | contradiction
            | intuition (discriminate || congruence || eauto 12) ].

(** With no operation given, [main] prints the three parts of the usage text
    and returns 0; it makes no other call and leaves the world as it was. *)
Theorem main_without_operation_prints_usage (av0 : string) (fl : flags)
    (w : W) :
  FLAGS_operation fl = "" ->
  let run := main av0 fl w in
  result run = Some 0
  /\ final run = Some w
  /\ without_printf (calls run) = []
  /\ List.length (calls run) = 3%nat.
Proof.
  intros Hop run. subst run. unfold_program. rewrite Hop. simpl.
  repeat split.
Qed.

(** When one of the three steps of the initialisation fails (no trust
    manager, [init_policy_key] or [initialize_enclave] returns false), [main]
    returns 1 at once: every call it has made belongs to the initialisation,
    so no operation is started, [clear_sensitive_data] is not called and the
    trust manager is not deleted. *)
Theorem main_leaves_on_failed_initialisation (av0 : string) (fl : flags)
    (w : W) :
  let run := main av0 fl w in
  (exists c, In c (calls run) /\ init_failed c = true) ->
  result run = Some 1
  /\ (forall c, In c (calls run) -> is_init_call c = true)
  /\ never is_clear_sensitive_data (calls run)
  /\ never is_delete_trust_mgr (calls run).
Proof.
  intros run. subst run. unfold_program.
  repeat run_step; intros [bad [Hin Hbad]]; simpl in Hin.
  all: try solve [ exfalso;
                   repeat (destruct Hin as [<-|Hin]; [discriminate Hbad|]);
                   contradiction ].
  all: repeat split; try never_in.
  all: intros c' H'; simpl in H';
       repeat (destruct H' as [<-|H']; [reflexivity|]); contradiction.
Qed.

(** In a run of cold-init, [cold_init] is the only call of an operation: it
    is made at most once, exactly once when the initialisation succeeded,
    with the two algorithms of the framework, the home domain
    "simple-app-home_domain" and the hosts and ports of the flags; [main]
    then returns 0 exactly when [cold_init] returned true. Nothing is reloaded
    ([warm_restart]), certified, read from the flags of the trust manager, or
    done on a channel. *)
Theorem cold_init_operation (av0 : string) (fl : flags) (w : W) :
  FLAGS_operation fl = "cold-init" ->
  let run := main av0 fl w in
  let t := calls run in
  let cold_init_returned r :=
    Cold_init Enc_method_rsa_2048 Enc_method_aes_256_cbc_hmac_sha256
      "simple-app-home_domain"
      (FLAGS_policy_host fl) (FLAGS_policy_port fl)
      (FLAGS_server_app_host fl) (FLAGS_server_app_port fl) r in
  (forall c, In c t -> is_cold_init c = true ->
     exists r, c = cold_init_returned r)
  /\ (count is_cold_init t <= 1)%nat
  /\ (In (Initialize_enclave 0 true) t ->
      count is_cold_init t = 1%nat
      /\ (result run = Some 0 <-> In (cold_init_returned true) t))
  /\ never is_warm_restart t
  /\ never is_certify_me t
  /\ never is_read_flag t
  /\ never is_channel_call t.
Proof.
  intros Hop run t cold_init_returned. subst t run cold_init_returned.
  unfold_program. rewrite Hop. simpl.
  repeat run_step.
  all: split;
    [ intros c Hc Hk; simpl in Hc;
      repeat (destruct Hc as [<-|Hc];
              [ try discriminate Hk; eexists; reflexivity |]);
      contradiction | ].
  all: split; [unfold count; simpl; lia|].
  all: split; [| repeat split; never_in ].
  all: intros Hready; simpl in Hready;
    try solve [ exfalso; intuition discriminate ].
  all: split; [reflexivity|]; simpl; split; intros H;
    solve [ reflexivity | discriminate H | intuition discriminate
          | do 4 right; left; reflexivity ].
Qed.

(** [main] returns 0 or 1. It fails to return only in a run of
    run-app-as-server in which [server_dispatch] does not return; the
    sensitive data is not cleared and the trust manager not deleted then,
    and [server_dispatch] is the last call made. *)
Theorem main_exit_status (av0 : string) (fl : flags) (w : W) :
  let run := main av0 fl w in
  (forall code, result run = Some code -> code = 0 \/ code = 1)
  /\ (result run = None ->
      FLAGS_operation fl = "run-app-as-server"
      /\ (exists pre inside,
            calls run
            = pre ++ [Server_dispatch (FLAGS_server_app_host fl)
                        (FLAGS_server_app_port fl) inside None])
      /\ never is_clear_sensitive_data (calls run)
      /\ never is_delete_trust_mgr (calls run)).
Proof.
  intros run. subst run. unfold_program.
  repeat run_step.
  all: split;
    [ intros code Hcode; simpl in Hcode;
      try discriminate Hcode; injection Hcode as <-; auto | ].
  all: intros Hnone; simpl in Hnone; try discriminate Hnone.
  all: split; [ apply String.eqb_eq; assumption | ].
  all: split; [ | split; never_in ].
  all: match goal with
       | |- exists pre inside, ?t = _ =>
           exists (removelast t); eexists; simpl; reflexivity
       end.
Qed.

(** In a run of run-app-as-client that reached the operation, the calls on
    a channel start with the construction of one channel object and end with
    its destruction; every call in between is on that object, and none of
    them constructs or destroys a channel. [close] is called exactly when
    [init_client_ssl] returned true, so once at most. *)
Theorem client_channel_lifetime (av0 : string) (fl : flags) (w : W) :
  FLAGS_operation fl = "run-app-as-client" ->
  let t := calls (main av0 fl w) in
  (In (Initialize_enclave 0 true) t ->
   exists channel middle,
     filter is_channel_call t
     = New_channel "client" channel :: middle ++ [Destroy_channel channel]
     /\ (forall c, In c middle ->
           channel_of c = Some channel
           /\ is_new_channel c = false /\ is_destroy_channel c = false))
  /\ count is_channel_close t = count is_client_ssl_up t
  /\ (count is_channel_close t <= 1)%nat
  /\ never is_server_dispatch t.
Proof.
  intros Hop t. subst t. unfold_program. rewrite Hop. simpl.
  repeat run_step.
  all: split; [ | split; [reflexivity|]; split;
                  [unfold count; simpl; lia | never_in] ].
  all: intros Hready; simpl in Hready;
    try solve [ exfalso; intuition discriminate ].
  all: match goal with
       | |- exists channel middle, ?l = _ /\ _ =>
           eexists; exists (removelast (tl l)); simpl; split; [reflexivity|]
       end.
  all: intros e He; simpl in He;
    repeat (destruct He as [<-|He]; [repeat split|]); contradiction.
Qed.

(** A run of run-app-as-client returns 0 exactly when [init_client_ssl]
    returned true and the read on that channel gave a length that is not
    negative and, as a C string, the message "Hi from your secret server\n". *)
Theorem client_run_succeeds_iff (av0 : string) (fl : flags) (w : W) :
  FLAGS_operation fl = "run-app-as-client" ->
  let run := main av0 fl w in
  result run = Some 0
  <-> exists channel n out,
        In (Init_client_ssl channel (FLAGS_server_app_host fl)
              (FLAGS_server_app_port fl) true) (calls run)
        /\ In (Channel_read channel n out) (calls run)
        /\ 0 <= n /\ c_str out = server_msg.
Proof.
  intros Hop run. subst run. unfold_program. rewrite Hop. simpl.
  repeat run_step.
  all: split;
    [ intros H; try discriminate H
    | intros [channel [n [out [Hssl [Hread [Hn Hout]]]]]];
      simpl in Hssl, Hread;
      try solve [ exfalso; intuition discriminate ] ].
  all: try reflexivity.
  all: match goal with
       | Hb : _ || _ = true |- _ =>
           (* the reply was rejected *)
           exfalso; apply reply_rejected_iff in Hb;
           repeat (destruct Hread as [Hread|Hread];
                   try discriminate Hread);
           try contradiction;
           injection Hread as _ Hn' Hout'; rewrite Hn', Hout' in Hb;
           intuition lia
       | Hb : _ || _ = false |- _ =>
           (* the reply was accepted *)
           apply orb_false_iff in Hb as [Hlt Hcmp];
           apply Z.ltb_ge in Hlt;
           apply negb_false_iff, Z.eqb_eq, strcmp_zero in Hcmp;
           eexists _, _, _;
           split; [simpl; repeat (first [left; reflexivity | right])|];
           split; [simpl; repeat (first [left; reflexivity | right])|];
           split; assumption
       end.
Qed.

(** In a run of run-app-as-server, [server_dispatch] is called at most
    once, on the host and port of the flags. When it returns, [main] returns 1
    if it returned false and 0 if it returned true, after clearing the
    sensitive data; when it does not return, neither does [main]. *)
Theorem server_run_follows_dispatch (av0 : string) (fl : flags) (w : W) :
  FLAGS_operation fl = "run-app-as-server" ->
  let run := main av0 fl w in
  (count is_server_dispatch (calls run) <= 1)%nat
  /\ (forall host port inside r,
        In (Server_dispatch host port inside r) (calls run) ->
        host = FLAGS_server_app_host fl
        /\ port = FLAGS_server_app_port fl
        /\ result run = option_map (fun ok : bool => if ok then 0 else 1) r
        /\ count is_clear_sensitive_data (calls run)
           = match r with Some _ => 1%nat | None => 0%nat end)
  /\ never is_new_channel (calls run)
  /\ never is_init_client_ssl (calls run).
Proof.
  intros Hop run. subst run. unfold_program. rewrite Hop. simpl.
  repeat run_step.
  all: split; [unfold count; simpl; lia|].
  all: split; [| split; never_in].
  all: intros host port inside r Hin; simpl in Hin;
    repeat (destruct Hin as [Hin|Hin]; try discriminate Hin);
    try contradiction.
  all: injection Hin as <- <- <- <-; repeat split.
Qed.

(** In every run of [main], the steps come in order: [init_policy_key] is
    called only after the trust manager was created, [initialize_enclave]
    only after [init_policy_key] returned true, and every other call that is
    not a [printf] (the calls of the four operations and of the label done)
    only after [initialize_enclave] returned true. *)
Theorem initialisation_comes_first (av0 : string) (fl : flags) (w : W) :
  let t := calls (main av0 fl w) in
  forall pre c post,
    t = pre ++ c :: post ->
    (is_init_policy_key c = true ->
     exists c', In c' pre /\ trust_manager_created c' = true)
    /\ (is_initialize_enclave c = true ->
        exists c', In c' pre /\ policy_key_ready c' = true)
    /\ (is_init_call c = false ->
        exists c', In c' pre /\ enclave_ready c' = true).
Proof.
  intros t pre c post Heq. subst t.
  assert (H : preceded_by trust_manager_created is_init_policy_key
                (calls (main av0 fl w)) = true
              /\ preceded_by policy_key_ready is_initialize_enclave
                   (calls (main av0 fl w)) = true
              /\ preceded_by enclave_ready (fun c => negb (is_init_call c))
                   (calls (main av0 fl w)) = true).
  { clear Heq. unfold_program. repeat run_step; repeat split. }
  destruct H as (H1 & H2 & H3).
  split; [|split]; intros Hc.
  - exact (preceded_by_spec _ _ _ H1 pre c post Heq Hc).
  - exact (preceded_by_spec _ _ _ H2 pre c post Heq Hc).
  - apply (preceded_by_spec _ _ _ H3 pre c post Heq). now rewrite Hc.
Qed.

(** Each operation makes the calls of its own flow only: get-certified never
    calls [cold_init], reads no flag of the trust manager and touches no
    channel; run-app-as-client never calls [cold_init], [certify_me] or
    [server_dispatch]; run-app-as-server never calls [cold_init] or
    [certify_me]. *)
Theorem operations_keep_to_their_calls (av0 : string) (fl : flags) (w : W) :
  let t := calls (main av0 fl w) in
  (FLAGS_operation fl = "get-certified" ->
   never is_cold_init t /\ never is_read_flag t /\ never is_channel_call t)
  /\ (FLAGS_operation fl = "run-app-as-client" ->
      never is_cold_init t /\ never is_certify_me t
      /\ never is_server_dispatch t)
  /\ (FLAGS_operation fl = "run-app-as-server" ->
      never is_cold_init t /\ never is_certify_me t).
Proof.
  intros t. subst t.
  split; [|split]; intros Hop; unfold_program; rewrite Hop; simpl;
    repeat run_step; repeat split; never_in.
Qed.

(** The two session handlers fit together: whatever the server handler
    writes on its channel is a reply the client handler accepts. If the
    client's read gives the length and the bytes of the server's write, the
    client handler returns success. *)
Theorem server_reply_satisfies_client (server_channel client_channel : Chan)
    (ws wc : W) (size : Z) (buf : string) :
  In (Channel_write server_channel size buf)
     (calls (server_application server_channel ws)) ->
  fst (chan_read client_channel
         (chan_write client_channel 27 client_msg wc)) = (size, buf) ->
  result (client_application client_channel wc) = Some true.
Proof.
  intros Hwrite Hread.
  assert (Hsent : size = 27 /\ buf = server_msg).
  { revert Hwrite.
    cbv beta zeta delta [server_application print_peer bind invoke perform
      printf emit ret calls].
    destruct (peer_cert_ server_channel ws);
      destruct (chan_read server_channel ws) as [[n out] w1];
      simpl; intros H;
      repeat (destruct H as [H|H]; try discriminate H);
      try contradiction; injection H as <- <-; split; reflexivity. }
  destruct Hsent as [-> ->].
  cbv beta zeta delta [client_application print_peer bind invoke perform
    printf emit ret calls result].
  change (strlen client_msg) with 27.
  destruct (peer_cert_ client_channel wc);
    destruct (chan_read client_channel
                (chan_write client_channel 27 client_msg wc))
      as [[n out] w1];
    cbn [fst snd] in *; injection Hread as -> ->; reflexivity.
Qed.

End DispatcherPaths.

(** ** More on the measurement utility *)

Section MeasurementPaths.

Import MeasurementInit.

Context {W : Type} {sys : System W}.

Ltac unfold_program :=
  cbv beta iota zeta delta [main write_file file_size read_file
    digest_message close fresh bind invoke perform printf emit ret calls
    result final].

Ltac run_step :=
  match goal with
  | |- context [negb ?b] => is_var b; destruct b
  | |- context [if ?b then _ else _] => is_var b; destruct b
  | |- context [match ?o with Some _ => _ | None => _ end] =>
      is_var o; destruct o
  | |- context [match ?x with pair _ _ => _ end] =>
      lazymatch x with
      | context [match _ with pair _ _ => _ end] => fail
      | context [if _ then _ else _] => fail
      | _ => destruct x as [? ?] eqn:?
      end
  | |- context [if ?c then _ else _] =>
      lazymatch c with
      | context [match _ with pair _ _ => _ end] => fail
      | context [if _ then _ else _] => fail
      | _ => destruct c eqn:?
      end
  end; cbn -[Z.ltb Z.gtb Z.eqb to_int to_size_t to_byte Z.to_nat S_ISREG
             test_measurement store Z.lor count filter without_printf
             preceded_by].

(** The tests a run went through decide the kinds of its calls. *)
Ltac settle :=
  cbn -[Z.ltb Z.gtb Z.eqb to_int to_size_t to_byte Z.to_nat S_ISREG
        test_measurement store Z.lor seq map] in *;
  repeat match goal with
         | H : negb _ = true |- _ => rewrite negb_true_iff in H
         | H : negb _ = false |- _ => rewrite negb_false_iff in H
         | H : (_ <? 0) = _ |- _ => rewrite ?H in *; clear H
         | H : (_ =? 1) = _ |- _ => rewrite ?H in *; clear H
         end;
  cbn -[Z.ltb Z.gtb Z.eqb to_int to_size_t to_byte Z.to_nat S_ISREG
        test_measurement store Z.lor seq map] in *.

Ltac never_in :=
  let c := fresh "c" in
  let H := fresh "H" in
  intros c H; simpl in H;
  repeat (destruct H as [<-|H]; [reflexivity|]);
  contradiction.

Ltac which H :=
  simpl in H;
  repeat (destruct H as [H|H]; try discriminate H);
  try contradiction.

(** *** Buffers *)

Lemma store_prefix (buf bytes : list Z) :
  firstn (List.length bytes) (store buf bytes) = bytes.
Proof.
  unfold store. rewrite firstn_app, Nat.sub_diag, firstn_all. simpl.
  apply app_nil_r.
Qed.

Lemma store_all (buf bytes : list Z) :
  List.length bytes = List.length buf -> store buf bytes = bytes.
Proof.
  intros H. unfold store. rewrite H, skipn_all. apply app_nil_r.
Qed.

Lemma store_length (buf bytes : list Z) :
  (List.length bytes <= List.length buf)%nat ->
  List.length (store buf bytes) = List.length buf.
Proof.
  intros H. unfold store. rewrite length_app, length_skipn. lia.
Qed.

(** *** Integer conversions *)

Lemma to_int_range (x : Z) : - 2 ^ 31 <= to_int x < 2 ^ 31.
Proof.
  unfold to_int.
  pose proof (Z.mod_pos_bound (x + 2 ^ 31) (2 ^ 32) eq_refl). lia.
Qed.

Lemma to_int_small (x : Z) : - 2 ^ 31 <= x < 2 ^ 31 -> to_int x = x.
Proof. intros H. unfold to_int. rewrite Z.mod_small; lia. Qed.

Lemma to_int_wraps (x : Z) :
  2 ^ 31 <= x < 2 ^ 32 -> to_int x = x - 2 ^ 32.
Proof.
  intros H. unfold to_int.
  replace (x + 2 ^ 31) with (x - 2 ^ 31 + 1 * 2 ^ 32) by lia.
  rewrite Z_mod_plus_full, Z.mod_small; lia.
Qed.

(** [write_file] calls [open] on the file (O_RDWR|O_CREAT|O_TRUNC, mode
    0644) in the world it is given. If the descriptor is negative that is its
    only call and it returns false. Otherwise it calls [write] once, with the
    caller's buffer and size, on that descriptor, then [close] on it, and
    returns true exactly when [write] did not fail. The world it leaves is
    the one these calls produce. So there is one [open] and at most one
    [write]; the descriptor is closed once if [open] gave one, success or
    not, and nothing is closed otherwise; nothing is read. *)
Theorem write_file_contract (file_name : string) (size : Z)
    (data : list Z) (w : W) :
  let run := write_file file_name size data w in
  let t := calls run in
  let path := c_str file_name in
  let opened := sys_open path 578 (Some 420) w in
  let fd := fst opened in
  let written := sys_write fd data (to_size_t size) (snd opened) in
  (if fd <? 0
   then t = [Sys_open path 578 (Some 420) fd]
        /\ result run = Some false
        /\ final run = Some (snd opened)
   else without_printf t
        = [Sys_open path 578 (Some 420) fd;
           Sys_write fd data (to_size_t size) (fst written);
           Sys_close fd]
        /\ result run = Some (negb (fst written <? 0))
        /\ final run = Some (sys_close fd (snd written)))
  /\ (exists ok : bool,
        result run = Some ok /\ (ok = true <-> count is_written t = 1%nat))
  /\ count is_close t = count is_opened t
  /\ (count is_opened t <= 1)%nat
  /\ (count is_write t <= 1)%nat
  /\ (forall fd buf cnt r,
        In (Sys_write fd buf cnt r) t ->
        buf = data /\ cnt = to_size_t size
        /\ In (Sys_open (c_str file_name) 578 (Some 420) fd) t
        /\ In (Sys_close fd) t)
  /\ never is_input_call t.
Proof.
  intros run t path opened fd written.
  subst t run path written fd opened. unfold_program.
  change (Z.lor (Z.lor O_RDWR O_CREAT) O_TRUNC) with 578.
  destruct (sys_open (c_str file_name) 578 (Some 420) w) as [fd w1].
  cbn [fst snd].
  destruct (fd <? 0) eqn:Efd; cbn [fst snd].
  - unfold count. cbn. rewrite Efd. cbn.
    split; [repeat split|].
    split; [exists false; split; [reflexivity|]; split; discriminate|].
    split; [reflexivity|]. split; [lia|]. split; [lia|].
    split; [|never_in].
    intros fd' buf cnt r H; which H.
  - destruct (sys_write fd data (to_size_t size) w1) as [r w2].
    cbn [fst snd].
    destruct (r <? 0) eqn:Er; unfold count; cbn; rewrite ?Efd, ?Er; cbn.
    all: split; [repeat split|].
    all: split;
      [ eexists; split; [reflexivity|]; split; intros H;
        solve [reflexivity | discriminate H] | ].
    all: split; [reflexivity|]; split; [lia|]; split; [lia|].
    all: split; [|never_in].
    all: intros fd' buf cnt r' H; which H.
    all: injection H as <- <- <- <-; simpl; intuition.
Qed.

(** [file_size] on a regular file gives the size [stat] reports, cut to 32
    bits: the size itself below 2^31, and a negative number for a size from
    2^31 up to 2^32 - 1. The result is always within the range of [int], and
    the only call made is the one [stat]. *)
Theorem file_size_of_regular_file (file_name : string) (w w1 : W)
    (file_info : stat_info) :
  sys_stat (c_str file_name) w = (Some file_info, w1) ->
  S_ISREG (st_mode file_info) = true ->
  let run := file_size file_name w in
  exists v,
    result run = Some v
    /\ - 2 ^ 31 <= v < 2 ^ 31
    /\ (0 <= st_size file_info < 2 ^ 31 -> v = st_size file_info)
    /\ (2 ^ 31 <= st_size file_info < 2 ^ 32 ->
        v = st_size file_info - 2 ^ 32 /\ v < 0)
    /\ calls run = [Sys_stat (c_str file_name) (Some file_info)]
    /\ final run = Some w1.
Proof.
  intros Hstat Hreg run. subst run.
  unfold file_size, bind, invoke, ret, result, calls, final.
  rewrite Hstat. cbn [fst snd]. rewrite Hreg. cbn.
  exists (to_int (st_size file_info)).
  split; [reflexivity|]. split; [apply to_int_range|].
  split; [intros H; apply to_int_small; lia|].
  split; [|split; reflexivity].
  intros H. rewrite to_int_wraps by assumption. lia.
Qed.

(** [read_file] either returns false, and then it has read nothing and the
    caller's size and buffer are as they were, or it returns true after
    exactly [stat], [open] for reading, [read], [close]: the file is regular,
    its size (as an [int]) is not above the caller's size, the descriptor is
    not negative, the new size is what [read] returned (as an [int], also
    when [read] failed) and the buffer starts with the bytes [read] stored.
    Every descriptor it got is closed, and it writes nothing. *)
Theorem read_file_contract (file_name : string) (size : Z) (data : list Z)
    (w : W) :
  let run := read_file file_name size data w in
  let t := calls run in
  (exists (ok : bool) size' data',
      result run = Some (ok, size', data')
      /\ (ok = false -> size' = size /\ data' = data /\ never is_read t)
      /\ (ok = true ->
          exists file_info fd n bytes,
            t = [Sys_stat (c_str file_name) (Some file_info);
                 Sys_open (c_str file_name) O_RDONLY None fd;
                 Sys_read fd (to_size_t (to_int (st_size file_info))) n bytes;
                 Sys_close fd]
            /\ S_ISREG (st_mode file_info) = true
            /\ to_int (st_size file_info) <= size
            /\ 0 <= fd
            /\ size' = to_int n
            /\ data' = store data bytes))
  /\ count is_close t = count is_opened t
  /\ never is_output_call t.
Proof.
  intros run t. subst t run. unfold_program.
  repeat run_step.
  all: split; [ | unfold count; settle; split; [reflexivity|never_in] ].
  all: eexists _, _, _; split; [reflexivity|]; split; intros H;
    try discriminate H.
  all: try solve [repeat split; never_in].
  eexists _, _, _, _. split; [reflexivity|].
  repeat match goal with
         | H : negb _ = false |- _ => rewrite negb_false_iff in H
         | H : (_ >? _) = false |- _ => rewrite Z.gtb_ltb, Z.ltb_ge in H
         | H : (_ <? _) = false |- _ => rewrite Z.ltb_ge in H
         end.
  repeat split; assumption.
Qed.

(** [digest_message] returns true exactly when the context was created and
    the three digest calls returned 1. The message and its length go to
    [EVP_DigestUpdate] as they are; the caller's digest buffer is changed by
    [EVP_DigestFinal_ex] only. The context is freed on the successful path
    only: a failure after [EVP_MD_CTX_new] leaves it allocated. *)
Theorem digest_message_contract (message : list Z) (message_len : Z)
    (digest : list Z) (digest_len : Z) (w : W) :
  let run := digest_message message message_len digest digest_len w in
  let t := calls run in
  exists (ok : bool) out,
    result run = Some (ok, out)
    /\ (ok = true <->
        In (EVP_MD_CTX_new true) t /\ In (EVP_DigestInit_ex 1) t
        /\ In (EVP_DigestUpdate message (to_size_t message_len) 1) t
        /\ count is_digest_done t = 1%nat)
    /\ count is_md_ctx_free t = (if ok then 1 else 0)%nat
    /\ (forall msg cnt r,
          In (EVP_DigestUpdate msg cnt r) t ->
          msg = message /\ cnt = to_size_t message_len)
    /\ (never is_digest_final t -> out = digest)
    /\ (forall r md, In (EVP_DigestFinal_ex r md) t -> out = store digest md).
Proof.
  intros run t. subst t run. unfold_program.
  repeat run_step.
  all: repeat match goal with
              | p : (_ * _)%type |- _ => destruct p
              end; cbn [fst snd] in *.
  all: eexists _, _; split; [reflexivity|].
  all: repeat match goal with
              | H : negb _ = true |- _ => rewrite negb_true_iff in H
              | H : negb _ = false |- _ => rewrite negb_false_iff in H
              | H : (?x =? 1) = true |- _ => apply Z.eqb_eq in H; subst x
              end.
  all: unfold count; cbn -[Z.eqb to_size_t store];
    repeat match goal with
           | H : (_ =? 1) = false |- _ => rewrite ?H
           end;
    cbn -[to_size_t store].
  all: split;
    [ split;
      [ intros Hok; try discriminate Hok; repeat split; auto 8
      | intros (H1 & H2 & H3 & H4); try reflexivity; exfalso;
        first [ discriminate H4
              | which H1
              | which H2; injection H2 as ->; discriminate
              | which H3; injection H3 as ->; discriminate ] ]
    | ].
  all: split; [reflexivity|].
  all: split; [ intros msg cnt r H; which H;
                injection H as <- <- _; split; reflexivity | ].
  all: split;
    [ intros H; try reflexivity; exfalso;
      specialize (H _ (or_intror (or_intror (or_intror (or_introl eq_refl)))));
      discriminate H
    | intros r md H; which H; injection H as _ <-; reflexivity ].
Qed.

(** What [preceded_by] decides. *)
Lemma measurement_preceded_from_spec (p q : call -> bool) (t : list call) :
  forall seen,
    preceded_from seen p q t = true ->
    forall pre c post,
      t = pre ++ c :: post -> q c = true ->
      seen = true \/ exists c', In c' pre /\ p c' = true.
Proof.
  induction t as [|d t IH]; intros seen H pre c post Heq Hq.
  - destruct pre; discriminate.
  - simpl in H. apply andb_true_iff in H as [Hd Ht].
    destruct pre as [|e pre]; simpl in Heq; injection Heq as -> ->.
    + rewrite Hq in Hd. simpl in Hd. now left.
    + destruct (IH _ Ht pre c post eq_refl Hq) as [Hs|[c' [Hin Hp]]].
      * apply orb_true_iff in Hs as [->|Hp]; [now left|].
        right. exists e. simpl. tauto.
      * right. exists c'. simpl. tauto.
Qed.

Lemma measurement_preceded_by_spec (p q : call -> bool) (t : list call) :
  preceded_by p q t = true ->
  forall pre c post,
    t = pre ++ c :: post -> q c = true ->
    exists c', In c' pre /\ p c' = true.
Proof.
  intros H pre c post Heq Hq.
  destruct (measurement_preceded_from_spec p q t false H pre c post Heq Hq)
    as [?|?]; [discriminate | assumption].
Qed.

Ltac run_main :=
  unfold_program; repeat run_step;
  repeat match goal with
         | p : (_ * _)%type |- _ => destruct p
         end;
  cbn [fst snd] in *.

(** In both modes, in a run in which no [read] failed, [main] returns 0 or
    1, and it returns 0 exactly when a [write] to the output file did not
    fail; there is at most one [write], failed or not. The output file is
    opened for writing whenever the measurement is there (always with
    --test_measurement, and after [EVP_DigestFinal_ex] returned 1 without
    it), and once it is open, 32 bytes are passed to [write]. (After a failed
    [read] the digest is attempted with a count of 2^64 - 1, see
    [digest_covers_what_was_read]; nothing is said of such a run.) *)
Theorem main_succeeds_iff_written (fl : flags) (w : W) :
  let run := main fl w in
  let t := calls run in
  never is_failed_read t ->
  (result run = Some 0 \/ result run = Some 1)
  /\ (result run = Some 0 <-> count is_written t = 1%nat)
  /\ (count is_write t <= 1)%nat
  /\ (FLAGS_test_measurement fl = true \/ count is_digest_done t = 1%nat ->
      exists fd,
        In (Sys_open (c_str (FLAGS_out_file fl)) 578 (Some 420) fd) t
        /\ (0 <= fd -> exists buf r, In (Sys_write fd buf 32 r) t)).
Proof.
  intros run t _. subst t run.
  match goal with
  | |- ?A1 /\ ?A2 /\ ?A3 /\ ?P =>
      assert (Hopen : P);
      [ | assert (Hexit : A1 /\ A2 /\ A3);
          [ clear Hopen
          | destruct Hexit as (H1 & H2 & H3);
            exact (conj H1 (conj H2 (conj H3 Hopen))) ] ]
  end.
  - unfold_program.
    change (Z.lor (Z.lor O_RDWR O_CREAT) O_TRUNC) with 578.
    change (to_size_t measurment_size) with 32.
    repeat run_step.
    all: repeat match goal with
                | p : (_ * _)%type |- _ => destruct p
                end; cbn [fst snd] in *.
    all: intros [Htest|Hdone]; try congruence.
    all: try solve [ exfalso; unfold count in Hdone; settle;
                     discriminate Hdone ].
    all: eexists; split;
      [ simpl; repeat (first [left; reflexivity | right]) | ].
    all: intros Hfd;
      try solve [ exfalso;
                  match goal with
                  | H : (_ <? 0) = true |- _ => apply Z.ltb_lt in H; lia
                  end ].
    all: eexists _, _; simpl; repeat (first [left; reflexivity | right]).
  - run_main.
    all: unfold count; settle.
    all: split; [auto|]; split; [|lia].
    all: split; intros H; solve [reflexivity | discriminate H].
Qed.

(** Without --test_measurement, the output file is opened and written only
    after [EVP_DigestFinal_ex] returned 1, and what is passed to [write],
    with count 32, is the 32-byte array that starts with the bytes
    [EVP_DigestFinal_ex] stored: the digest itself when it has 32 bytes. *)
Theorem output_is_the_digest (fl : flags) (w : W) :
  FLAGS_test_measurement fl = false ->
  let t := calls (main fl w) in
  (forall pre c post,
      t = pre ++ c :: post -> is_output_call c = true ->
      exists c', In c' pre /\ is_digest_done c' = true)
  /\ (forall fd buf cnt r,
        In (Sys_write fd buf cnt r) t ->
        cnt = 32
        /\ exists md,
             In (EVP_DigestFinal_ex 1 md) t
             /\ firstn (List.length md) buf = md
             /\ (List.length md = 32%nat -> buf = md)).
Proof.
  intros Htest t. subst t. split.
  - apply measurement_preceded_by_spec.
    unfold_program. rewrite Htest. repeat run_step.
    all: unfold preceded_by; settle; reflexivity.
  - unfold_program. rewrite Htest. repeat run_step.
    all: repeat match goal with
                | p : (_ * _)%type |- _ => destruct p
                end; cbn [fst snd] in *.
    all: intros fd buf cnt r H; which H.
    all: injection H as _ <- <- _.
    all: repeat match goal with
                | H : negb _ = false |- _ => rewrite negb_false_iff in H
                | H : (?x =? 1) = true |- _ => apply Z.eqb_eq in H; subst x
                end.
    all: split; [reflexivity|].
    all: eexists; split;
      [ simpl; repeat (first [left; reflexivity | right]) | ].
    all: split; [apply store_prefix|].
    all: intros Hlen; apply store_all; rewrite Hlen; reflexivity.
Qed.

(** Without --test_measurement, the digest is computed over the buffer that
    [read] filled, with the count [read] returned converted to [int] and then
    to [size_t]; the result of [read] is not tested, so after a failed [read]
    (-1) the count is 2^64 - 1. *)
Theorem digest_covers_what_was_read (fl : flags) (w : W) :
  FLAGS_test_measurement fl = false ->
  let t := calls (main fl w) in
  forall fd count n bytes msg cnt r,
    In (Sys_read fd count n bytes) t ->
    In (EVP_DigestUpdate msg cnt r) t ->
    cnt = to_size_t (to_int n)
    /\ firstn (List.length bytes) msg = bytes
    /\ (n = -1 -> cnt = 2 ^ 64 - 1).
Proof.
  intros Htest t. subst t.
  unfold_program. rewrite Htest. repeat run_step.
  all: repeat match goal with
              | p : (_ * _)%type |- _ => destruct p
              end; cbn [fst snd] in *.
  all: intros fd count n bytes msg cnt r Hread Hupdate;
    which Hread; which Hupdate.
  all: injection Hread as _ _ <- <-; injection Hupdate as <- <- _.
  all: split; [reflexivity|]; split; [apply store_prefix|].
  all: intros ->; reflexivity.
Qed.

(** When [malloc] returns null, [main] returns 1 having called [stat] once:
    it reads nothing, writes nothing and frees nothing. *)
Theorem main_without_memory (fl : flags) (w : W) (size : Z) :
  In (Malloc size false) (calls (main fl w)) ->
  let run := main fl w in
  result run = Some 1
  /\ count is_stat (calls run) = 1%nat
  /\ never is_read (calls run)
  /\ never is_output_call (calls run)
  /\ never is_free (calls run).
Proof.
  intros Hin run. subst run. revert Hin. run_main.
  all: intros Hin; which Hin.
  all: repeat split; try never_in.
Qed.

(** *** Printing *)

(** What a run shows apart from its messages. *)
Local Abbreviation shown r := (without_printf (fst r), snd r).

Lemma bind_shown_ext {A B : Type} (m : M W call A) (k1 k2 : A -> M W call B) (w : W) :
  (forall a w', shown (k1 a w') = shown (k2 a w')) ->
  shown (bind m k1 w) = shown (bind m k2 w).
Proof.
  intros H. unfold bind. destruct (m w) as [t [[a w']|]]; [|reflexivity].
  specialize (H a w').
  destruct (k1 a w') as [t1 r1], (k2 a w') as [t2 r2].
  cbn [fst snd] in *. injection H as Ht ->.
  unfold without_printf in *. now rewrite !filter_app, Ht.
Qed.

Lemma bind_printf_shown {B : Type} (text : string) (k : unit -> M W call B)
    (w : W) :
  shown (bind (printf text) k w) = shown (k tt w).
Proof.
  unfold bind, printf, emit. destruct (k tt w) as [t r]. reflexivity.
Qed.

Lemma bind_ret_shown {B : Type} (k : unit -> M W call B) (w : W) :
  shown (bind (ret tt) k w) = shown (k tt w).
Proof. unfold bind, ret. destruct (k tt w) as [t r]. reflexivity. Qed.

Lemma bind_bind {A B C : Type} (m : M W call A) (k : A -> M W call B)
    (h : B -> M W call C) (w : W) :
  bind (bind m k) h w = bind m (fun a => bind (k a) h) w.
Proof.
  unfold bind. destruct (m w) as [t [[a w']|]]; [|reflexivity].
  destruct (k a w') as [t1 [[b w1]|]]; [|reflexivity].
  destruct (h b w1) as [t2 r2]. now rewrite app_assoc.
Qed.

(** [main] with --print_all=false shows what [main] shows. *)
Lemma main_quiet (fl : flags) (w : W) :
  shown (main (set_print_all false fl) w) = shown (main fl w).
Proof.
  destruct fl as [print_all test in_file out_file].
  unfold set_print_all, main.
  cbn [FLAGS_print_all FLAGS_test_measurement FLAGS_in_file FLAGS_out_file].
  destruct print_all; [|reflexivity].
  rewrite bind_ret_shown.
  destruct test; rewrite bind_bind, !bind_printf_shown.
  - reflexivity.
  - apply bind_shown_ext. intros m w1.
    apply bind_shown_ext. intros size w2.
    now rewrite bind_ret_shown, bind_printf_shown.
Qed.

(** --print_all changes what is printed and nothing else: the calls other
    than [printf], the result and the final world are the same with and
    without it. *)
Theorem print_all_only_prints (fl : flags) (b : bool) (w : W) :
  let verbose := main (set_print_all b fl) w in
  let run := main fl w in
  without_printf (calls verbose) = without_printf (calls run)
  /\ result verbose = result run
  /\ final verbose = final run.
Proof.
  intros verbose run. subst verbose run.
  assert (H : shown (main (set_print_all b fl) w) = shown (main fl w)).
  { rewrite <- (main_quiet fl w), <- (main_quiet (set_print_all b fl) w).
    reflexivity. }
  injection H as Hcalls Hrest.
  unfold calls, result, final. now rewrite Hcalls, Hrest.
Qed.

End MeasurementPaths.

(** ** More runs on the scripted collaborators *)

Section MoreIsletRuns.

Import IsletExampleApp.

(** A server whose [server_dispatch] never returns: [main] does not return,
    after one session served inside [server_dispatch]. *)
Example server_listens_forever :
  let run := main "app" (Scripted.with_operation "run-app-as-server")
               (Scripted.with_dispatch None) in
  result run = None
  /\ exists inside,
       last (calls run) SSL_library_init
       = Server_dispatch "localhost" 8124 inside None
       /\ without_printf inside
          = [Channel_read 1%nat 27 server_msg;
             Channel_write 1%nat 27 server_msg;
             Channel_close 1%nat].
Proof. split; [reflexivity|]. eexists. split; reflexivity. Qed.

Lemma main_without_operation_prints_usage_witness :
  let fl := Scripted.with_operation "" in
  let run := main "app" fl Scripted.all_good in
  FLAGS_operation fl = ""
  /\ result run = Some 0
  /\ final run = Some Scripted.all_good
  /\ without_printf (calls run) = []
  /\ List.length (calls run) = 3%nat.
Proof.
  split; [reflexivity|].
  exact (main_without_operation_prints_usage "app"
           (Scripted.with_operation "") Scripted.all_good eq_refl).
Defined.

Lemma main_leaves_on_failed_initialisation_witness :
  let run := main "app" (Scripted.with_operation "get-certified")
               Scripted.no_trust_manager in
  (exists c, In c (calls run) /\ init_failed c = true)
  /\ result run = Some 1
  /\ never is_clear_sensitive_data (calls run).
Proof.
  assert (H : exists c,
             In c (calls (main "app" (Scripted.with_operation "get-certified")
                            Scripted.no_trust_manager))
             /\ init_failed c = true).
  { exists (New_cc_trust_manager "islet-enclave" "authentication"
              "./app1_data/store.bin" false).
    split; [simpl; repeat (first [left; reflexivity | right]) | reflexivity]. }
  split; [exact H|].
  pose proof (main_leaves_on_failed_initialisation
                (collab := Scripted.collaborators) "app"
                (Scripted.with_operation "get-certified")
                Scripted.no_trust_manager H) as (H1 & _ & H3 & _).
  exact (conj H1 H3).
Defined.

Lemma cold_init_operation_witness :
  let fl := Scripted.with_operation "cold-init" in
  let run := main "app" fl Scripted.all_good in
  FLAGS_operation fl = "cold-init"
  /\ count is_cold_init (calls run) = 1%nat
  /\ (result run = Some 0 <->
      In (Cold_init "rsa-2048" "aes-256-cbc-hmac-sha256"
            "simple-app-home_domain" "localhost" 8123 "localhost" 8124 true)
         (calls run)).
Proof.
  split; [reflexivity|].
  apply (cold_init_operation (collab := Scripted.collaborators) "app"
           (Scripted.with_operation "cold-init") Scripted.all_good eq_refl).
  simpl. repeat (first [left; reflexivity | right]).
Defined.

Lemma client_channel_lifetime_witness :
  let fl := Scripted.with_operation "run-app-as-client" in
  let t := calls (main "app" fl Scripted.all_good) in
  FLAGS_operation fl = "run-app-as-client"
  /\ count is_channel_close t = count is_client_ssl_up t
  /\ (count is_channel_close t <= 1)%nat
  /\ never is_server_dispatch t.
Proof.
  split; [reflexivity|].
  exact (proj2 (client_channel_lifetime (collab := Scripted.collaborators)
                  "app" (Scripted.with_operation "run-app-as-client")
                  Scripted.all_good eq_refl)).
Defined.

Lemma client_run_succeeds_iff_witness :
  let fl := Scripted.with_operation "run-app-as-client" in
  let run := main "app" fl Scripted.all_good in
  FLAGS_operation fl = "run-app-as-client"
  /\ exists channel n out,
       In (Init_client_ssl channel "localhost" 8124 true) (calls run)
       /\ In (Channel_read channel n out) (calls run)
       /\ 0 <= n /\ c_str out = server_msg.
Proof.
  split; [reflexivity|].
  apply (client_run_succeeds_iff (collab := Scripted.collaborators) "app"
           (Scripted.with_operation "run-app-as-client") Scripted.all_good
           eq_refl).
  reflexivity.
Defined.

Lemma server_run_follows_dispatch_witness :
  let fl := Scripted.with_operation "run-app-as-server" in
  let run := main "app" fl (Scripted.with_dispatch (Some true)) in
  FLAGS_operation fl = "run-app-as-server"
  /\ (count is_server_dispatch (calls run) <= 1)%nat
  /\ result run = Some 0.
Proof.
  split; [reflexivity|].
  pose proof (server_run_follows_dispatch (collab := Scripted.collaborators)
                "app" (Scripted.with_operation "run-app-as-server")
                (Scripted.with_dispatch (Some true)) eq_refl)
    as (H1 & H2 & _).
  split; [exact H1|].
  refine (proj1 (proj2 (proj2 (H2 "localhost" 8124 _ (Some true) _)))).
  simpl. repeat (first [left; reflexivity | right]).
Defined.

Lemma initialisation_comes_first_witness :
  let t := calls (main "app" (Scripted.with_operation "get-certified")
                    Scripted.all_good) in
  let pre := [SSL_library_init;
              New_cc_trust_manager "islet-enclave" "authentication"
                "./app1_data/store.bin" true;
              Init_policy_key true;
              Initialize_enclave 0 true] in
  let post := [Certify_me true; Clear_sensitive_data; Delete_trust_mgr] in
  t = pre ++ Warm_restart true :: post
  /\ exists c', In c' pre /\ enclave_ready (Chan := nat) c' = true.
Proof.
  split; [reflexivity|].
  refine (proj2 (proj2 (initialisation_comes_first
                          (collab := Scripted.collaborators) "app"
                          (Scripted.with_operation "get-certified")
                          Scripted.all_good _ (Warm_restart true)
                          [Certify_me true; Clear_sensitive_data;
                           Delete_trust_mgr] eq_refl)) eq_refl).
Defined.

Lemma server_reply_satisfies_client_witness :
  let w := Scripted.all_good in
  In (Channel_write 1%nat 27 server_msg)
     (calls (server_application 1%nat w))
  /\ fst (chan_read 0%nat (chan_write 0%nat 27 client_msg w))
     = (27, server_msg)
  /\ result (client_application 0%nat w) = Some true.
Proof.
  assert (H : In (Channel_write 1%nat 27 server_msg)
                (calls (server_application 1%nat Scripted.all_good))).
  { simpl. repeat (first [left; reflexivity | right]). }
  split; [exact H|]. split; [reflexivity|].
  exact (server_reply_satisfies_client (collab := Scripted.collaborators)
           1%nat 0%nat Scripted.all_good Scripted.all_good 27 server_msg
           H eq_refl).
Defined.

End MoreIsletRuns.

(** ** More runs of the measurement utility *)

Section MoreMeasurementRuns.

Import MeasurementInit.

(** A regular input file of four bytes is measured: the digest goes to the
    output file. *)
Example input_file_measured :
  let run := main Scripted.measure_flags Scripted.file_disk in
  result run = Some 0
  /\ option_map (fun w => Scripted.lookup "binary_trusted_measurements_file.bin"
                            (Scripted.files w)) (final run)
     = Some (Some (Scripted.regular_0644, repeat 170 32)).
Proof. split; reflexivity. Qed.

Lemma file_size_of_regular_file_witness :
  let file_info := {| st_mode := Scripted.regular_0644; st_size := 4 |} in
  sys_stat (c_str "test.exe") Scripted.file_disk
  = (Some file_info, Scripted.file_disk)
  /\ S_ISREG (st_mode file_info) = true
  /\ exists v,
       result (file_size "test.exe" Scripted.file_disk) = Some v
       /\ - 2 ^ 31 <= v < 2 ^ 31
       /\ (0 <= st_size file_info < 2 ^ 31 -> v = st_size file_info)
       /\ (2 ^ 31 <= st_size file_info < 2 ^ 32 ->
           v = st_size file_info - 2 ^ 32 /\ v < 0)
       /\ calls (file_size "test.exe" Scripted.file_disk)
          = [Sys_stat (c_str "test.exe") (Some file_info)]
       /\ final (file_size "test.exe" Scripted.file_disk)
          = Some Scripted.file_disk.
Proof.
  split; [reflexivity|]. split; [reflexivity|].
  exact (file_size_of_regular_file (sys := Scripted.system) "test.exe"
           Scripted.file_disk Scripted.file_disk
           {| st_mode := Scripted.regular_0644; st_size := 4 |}
           eq_refl eq_refl).
Defined.

Lemma main_succeeds_iff_written_witness :
  let run := main Scripted.measure_flags Scripted.file_disk in
  never is_failed_read (calls run)
  /\ result run = Some 0
  /\ count is_written (calls run) = 1%nat
  /\ (count is_write (calls run) <= 1)%nat
  /\ exists fd,
       In (Sys_open "binary_trusted_measurements_file.bin" 578 (Some 420) fd)
          (calls run)
       /\ (0 <= fd -> exists buf r, In (Sys_write fd buf 32 r) (calls run)).
Proof.
  assert (H : never is_failed_read
                (calls (main Scripted.measure_flags Scripted.file_disk))).
  { intros c Hc. simpl in Hc.
    repeat (destruct Hc as [<-|Hc]; [reflexivity|]). contradiction. }
  split; [exact H|].
  pose proof (main_succeeds_iff_written (sys := Scripted.system)
                Scripted.measure_flags Scripted.file_disk H)
    as (_ & H2 & H3 & H4).
  split; [reflexivity|]. split; [apply H2; reflexivity|].
  split; [exact H3|].
  apply H4. right. reflexivity.
Defined.

Lemma output_is_the_digest_witness :
  let t := calls (main Scripted.measure_flags Scripted.file_disk) in
  FLAGS_test_measurement Scripted.measure_flags = false
  /\ In (Sys_write 3 (repeat 170 32) 32 32) t
  /\ exists md,
       In (EVP_DigestFinal_ex 1 md) t
       /\ firstn (List.length md) (repeat 170 32) = md
       /\ (List.length md = 32%nat -> repeat 170 32 = md).
Proof.
  assert (H : In (Sys_write 3 (repeat 170 32) 32 32)
                (calls (main Scripted.measure_flags Scripted.file_disk))).
  { simpl. repeat (first [left; reflexivity | right]). }
  split; [reflexivity|]. split; [exact H|].
  exact (proj2 (proj2 (output_is_the_digest (sys := Scripted.system)
                         Scripted.measure_flags Scripted.file_disk eq_refl)
                  3 (repeat 170 32) 32 32 H)).
Defined.

Lemma digest_covers_what_was_read_witness :
  let t := calls (main (sys := Faulty.system) Scripted.measure_flags
                    Faulty.bad_read) in
  FLAGS_test_measurement Scripted.measure_flags = false
  /\ In (Sys_read 3 4 (-1) []) t
  /\ In (EVP_DigestUpdate [204; 204; 204; 204] 18446744073709551615 1) t
  /\ 18446744073709551615 = 2 ^ 64 - 1.
Proof.
  assert (Hread : In (Sys_read 3 4 (-1) [])
                    (calls (main (sys := Faulty.system) Scripted.measure_flags
                              Faulty.bad_read))).
  { simpl. repeat (first [left; reflexivity | right]). }
  assert (Hupd : In (EVP_DigestUpdate [204; 204; 204; 204]
                       18446744073709551615 1)
                   (calls (main (sys := Faulty.system) Scripted.measure_flags
                             Faulty.bad_read))).
  { simpl. repeat (first [left; reflexivity | right]). }
  split; [reflexivity|]. split; [exact Hread|]. split; [exact Hupd|].
  exact (proj2 (proj2 (digest_covers_what_was_read (sys := Faulty.system)
                         Scripted.measure_flags Faulty.bad_read eq_refl
                         3 4 (-1) [] _ _ 1 Hread Hupd)) eq_refl).
Defined.

Lemma main_without_memory_witness :
  let run := main (sys := Faulty.system) Scripted.measure_flags
               Faulty.no_memory in
  In (Malloc 4 false) (calls run)
  /\ result run = Some 1
  /\ count is_stat (calls run) = 1%nat
  /\ never is_read (calls run)
  /\ never is_output_call (calls run)
  /\ never is_free (calls run).
Proof.
  assert (H : In (Malloc 4 false)
                (calls (main (sys := Faulty.system) Scripted.measure_flags
                          Faulty.no_memory))).
  { simpl. repeat (first [left; reflexivity | right]). }
  split; [exact H|].
  exact (main_without_memory (sys := Faulty.system) Scripted.measure_flags
           Faulty.no_memory 4 H).
Defined.

End MoreMeasurementRuns.
